(** * tokenize-pop909: job orchestration and statistics aggregation

    A shallow embedding of [src/tokenize-pop909.py].  The script's [main]
    discovers the preprocessed shards of a directory, builds the single
    job handed to the worker pool, unpacks the statistics tuple that comes
    back, derives two percentages and prints a report.

    Python integers are [Z]; Python floats are the kernel's binary64
    [float]; [str] values are [string] (read as UTF-8 bytes, whose bytewise
    order is the code-point order Python compares [str] with).  What [main]
    does to the outside world is a trace of events: the lines it prints and
    the call it makes on the worker pool.  The file system and the pool are
    parameters of [main]; the constants of [anticipation.config], which is
    not part of the repository, are a record of integers.  Paths follow
    [posixpath].  Two limits of the model are carried by the statements
    that depend on them: [glob] is modelled for a directory argument
    without [*], [?] or bracket ([has_magic] below), and the pool is
    modelled for the calls that return a result list, so what is said of
    the end of a run is said of the lines after the call (59 to 89). *)

From Stdlib Require Import ZArith List Bool String Ascii Lia.
From Stdlib Require Import Permutation Sorted Orders Mergesort OrderedTypeEx.
From Stdlib Require Import PrimFloat SpecFloat FloatOps FloatAxioms.
From Stdlib Require Import QArith Qabs Qpower Lqa.
Import ListNotations.

#[local] Open Scope Z_scope.

(* ================================================================== *)
(** ** Python floats *)
(* ================================================================== *)

Module PyFloat.

(** The least magnitude an [int] must have for [float(int)] to raise
    [OverflowError]: halfway between the largest double, [2^1024 - 2^971],
    and [2^1024] (the tie goes to the even mantissa, that is upwards). *)
Definition float_overflow_bound : Z := 2 ^ 1024 - 2 ^ 970.

(** The double nearest to an integer, ties to even (the rounding of
    CPython's [PyLong_AsDouble]). *)
Definition nearest_float (z : Z) : float :=
  SF2Prim (binary_normalize prec emax z 0 false).

(** [float(z)]: [None] stands for [OverflowError]. *)
Definition float_of_int (z : Z) : option float :=
  if Z.abs z <? float_overflow_bound then Some (nearest_float z) else None.

(** The double nearest to the rational [n / d] ([0 < n], [0 < d]), with
    sign [sx].  The quotient is taken with at least 64 significant bits
    and the remainder is kept as a rounding location. *)
Definition float_of_ratio (sx : bool) (n d : Z) : float :=
  let s := Z.max 0 (64 + Z.log2 d - Z.log2 n) in
  let q := (n * 2 ^ s) / d in
  let r := (n * 2 ^ s) mod d in
  let l := if r =? 0 then loc_Exact else loc_Inexact (2 * r ?= d) in
  SF2Prim (binary_round_aux prec emax sx q (- s) l).

(** The integer nearest to [n / d] ([0 < d]), ties to even. *)
Definition round_half_even (n d : Z) : Z :=
  let q := n / d in
  let r := n mod d in
  match 2 * r ?= d with
  | Lt => q
  | Gt => q + 1
  | Eq => if Z.even q then q else q + 1
  end.

(** The largest [ndigits] for which [round] does any work on a double. *)
Definition NDIGITS_MAX : N := 323.

(** [round(x, ndigits)] on a float, for [ndigits >= 0] (CPython's
    [double_round]): the exact binary value of [x] is rounded to [ndigits]
    decimal places, ties to even, and the decimal is converted back to the
    nearest double.  Infinities and NaN round to themselves. *)
Definition py_round (x : float) (ndigits : N) : float :=
  if (NDIGITS_MAX <? ndigits)%N then x else
  let p := 10 ^ Z.of_N ndigits in
  match Prim2SF x with
  | S754_finite s m e =>
      let k := if 0 <=? e then Z.pos m * 2 ^ e * p
               else round_half_even (Z.pos m * p) (2 ^ (- e)) in
      if k =? 0 then SF2Prim (S754_zero s) else float_of_ratio s k p
  | _ => x
  end.

End PyFloat.

(* ================================================================== *)
(** ** Paths, file-name patterns and directory listings *)
(* ================================================================== *)

Module PyPath.

Definition sep : ascii := "/"%char.

Definition is_sep (c : ascii) : bool := Ascii.eqb c sep.

Definition startswith_sep (s : string) : bool :=
  match s with
  | EmptyString => false
  | String c _ => is_sep c
  end.

Fixpoint endswith_sep (s : string) : bool :=
  match s with
  | EmptyString => false
  | String c EmptyString => is_sep c
  | String _ s' => endswith_sep s'
  end.

Fixpoint has_sep (s : string) : bool :=
  match s with
  | EmptyString => false
  | String c s' => is_sep c || has_sep s'
  end.

Fixpoint all_sep (s : string) : bool :=
  match s with
  | EmptyString => true
  | String c s' => is_sep c && all_sep s'
  end.

Definition is_empty (s : string) : bool :=
  match s with
  | EmptyString => true
  | String _ _ => false
  end.

(** [s.rstrip('/')]. *)
Fixpoint rstrip_sep (s : string) : string :=
  match s with
  | EmptyString => EmptyString
  | String c s' =>
      let r := rstrip_sep s' in
      if is_sep c && is_empty r then EmptyString else String c r
  end.

(** [(p[:i], p[i:])] for [i = p.rfind('/') + 1]. *)
Fixpoint cut_after_last_sep (p : string) : string * string :=
  match p with
  | EmptyString => (EmptyString, EmptyString)
  | String c p' =>
      if is_sep c || has_sep p'
      then let (head, tail) := cut_after_last_sep p' in (String c head, tail)
      else (EmptyString, p)
  end.

(** [os.path.join(a, b)] of [posixpath]. *)
Definition join (a b : string) : string :=
  if startswith_sep b then b
  else if is_empty a || endswith_sep a then (a ++ b)%string
  else (a ++ String sep b)%string.

(** [os.path.split(p)] of [posixpath]. *)
Definition split (p : string) : string * string :=
  let (head, tail) := cut_after_last_sep p in
  (if negb (is_empty head) && negb (all_sep head) then rstrip_sep head else head,
   tail).

(** [fnmatch] for patterns made of literal characters, [*] and [?]
    (bracket classes do not occur in this program's pattern). *)
Fixpoint fnmatch (pat : string) : string -> bool :=
  match pat with
  | EmptyString => fun name => is_empty name
  | String c pat' =>
      if Ascii.eqb c "*" then
        fix star (name : string) : bool :=
          fnmatch pat' name ||
          match name with
          | EmptyString => false
          | String _ name' => star name'
          end
      else if Ascii.eqb c "?" then
        fun name =>
          match name with
          | EmptyString => false
          | String _ name' => fnmatch pat' name'
          end
      else
        fun name =>
          match name with
          | EmptyString => false
          | String d name' => Ascii.eqb c d && fnmatch pat' name'
          end
  end.

(** [glob._ishidden]: the name starts with a dot. *)
Definition ishidden (name : string) : bool :=
  match name with
  | String c _ => Ascii.eqb c "."
  | EmptyString => false
  end.

(** [glob._glob1]: the entries of a directory matching [pattern]; hidden
    entries are dropped unless the pattern itself is hidden. *)
Definition glob1 (entries : list string) (pattern : string) : list string :=
  filter (fnmatch pattern)
         (if ishidden pattern then entries
          else filter (fun x => negb (ishidden x)) entries).

(** [glob.glob(pathname)] for a pathname whose directory part is literal
    and whose last component is a pattern.  [listdir d] gives the names of
    the entries of directory [d], in the order the operating system
    enumerates them (no entry when [d] cannot be read).  A directory part
    holding [*], [?] or a bracket is expanded by [glob.glob] and is not
    covered: what depends on the directory listed is stated for directory
    arguments without these characters. *)
Definition glob (listdir : string -> list string) (pathname : string)
  : list string :=
  let (dirname, basename) := split pathname in
  if is_empty dirname then glob1 (listdir "."%string) basename
  else map (join dirname) (glob1 (listdir dirname) basename).

End PyPath.

(** [sorted] on a list of [str]: a stable merge sort by the
    lexicographic order of the strings. *)
Module StrOrder <: TotalLeBool.
Definition t := string.
Definition leb (a b : string) : bool := String.leb a b.
Definition leb_total : forall a b, leb a b = true \/ leb b a = true :=
  String.leb_total.
End StrOrder.

Module StrSort := Sort StrOrder.

Definition sorted (l : list string) : list string := StrSort.sort l.

(** The order [sorted] arranges by. *)
Definition str_le (a b : string) : Prop := String.leb a b = true.

(* ================================================================== *)
(** ** The data of one invocation *)
(* ================================================================== *)

(** The parsed command line: the positional [datadir], [-k/--augment]
    ([type=int]) and the [-i/--interarrival] flag. *)
Record Args := {
  datadir : string;
  augment : Z;
  interarrival : bool
}.

(** The constants [main] reads from [anticipation.config].  The worker
    count is what [Pool(processes=...)] accepts, a positive integer. *)
Record Config := {
  DELTA : Z;
  MAX_TRACK_TIME_IN_SECONDS : Z;
  MIN_TRACK_TIME_IN_SECONDS : Z;
  MIN_TRACK_EVENTS : Z;
  PREPROC_WORKERS : positive;
  M : Z
}.

(** The two routines of [anticipation.tokenize] that [func] ranges over. *)
Inductive tokenizer := tokenize | tokenize_ia.

(** One element of [starmap_args]: the tuple
    [(input_files, output_file, current_augment_factor, proc_idx)]. *)
Module Job.
Record JobDescriptor := {
  input_files : list string;
  output_destination : string;
  augmentation_factor : Z;
  slot_index : Z
}.
End Job.
Abbreviation JobDescriptor := Job.JobDescriptor.

(** The tuple a tokenizer returns, in the order line 65 unpacks it. *)
Record StatsTuple := {
  sequence_count : Z;
  rest_token_count : Z;
  too_short_count : Z;
  too_long_count : Z;
  too_many_instruments_count : Z;
  discarded_sequence_count : Z;
  truncation_count : Z
}.

(** What surrounds the script: the directory listings of the file system
    and the worker pool, which receives the pool size, the routine and the
    jobs and gives back the list of statistics tuples.  [pool_starmap] is
    the list [pool.starmap] returns when it returns: an exception a
    tokenizer raises crosses line 57 and ends [main] there, a case that
    has no counterpart here.  [Pool.starmap] itself returns one tuple per
    job ([faithful_pool] below); other lists are admitted so that the
    branch of lines 59 to 61 can be spoken of. *)
Record World := {
  listdir : string -> list string;
  pool_starmap : positive -> tokenizer -> list JobDescriptor -> list StatsTuple
}.

(** A value interpolated in an f-string. *)
Inductive pyval :=
| PInt (z : Z)
| PFloat (f : float)
| PStr (s : string).

(** An f-string: literal text and interpolated values. *)
Inductive frag :=
| Lit (s : string)
| Hole (v : pyval).

Definition line := list frag.

Inductive event :=
| Print (l : line)
| Starmap (processes : positive) (func : tokenizer) (jobs : list JobDescriptor).

(** The exceptions the arithmetic of lines 70 to 73 can raise. *)
Inductive exn := OverflowError | ZeroDivisionError.

(** The local variables of [main] once the ratios are computed (lines
    65 to 76), which the report is printed from. *)
Module Report.
Record AggregateReport := {
  output_file : string;
  seq_count : Z;
  rest_count : Z;
  too_short : Z;
  too_long : Z;
  too_manyinstr : Z;
  discarded_seqs : Z;
  truncations : Z;
  rest_ratio : pyval;
  trunc_type : string;
  trunc_ratio : pyval
}.
End Report.
Abbreviation AggregateReport := Report.AggregateReport.

(** How a call of [main] ends: it returns ([None] in Python), after the
    report when [Some], before it otherwise; or an exception leaves it. *)
Inductive outcome :=
| Returned (report : option AggregateReport)
| Raised (e : exn).

(* ================================================================== *)
(** ** Printing, early return and exceptions *)
(* ================================================================== *)

Inductive step (A : Type) :=
| Cont (a : A)
| Halt (o : outcome).
Arguments Cont {A} a.
Arguments Halt {A} o.

(** A piece of [main]: the events it emits, and either a value to go on
    with or the way the call ended. *)
Definition prog (A : Type) : Type := list event * step A.

Definition ret {A} (a : A) : prog A := ([], Cont a).

Definition bind {A B} (m : prog A) (k : A -> prog B) : prog B :=
  match m with
  | (t, Cont a) => let (t', r) := k a in (t ++ t', r)
  | (t, Halt o) => (t, Halt o)
  end.

Declare Scope prog_scope.
Delimit Scope prog_scope with prog.
Bind Scope prog_scope with prog.
Notation "x <- m ;; k" := (bind m (fun x => k))
  (at level 61, m at next level, right associativity) : prog_scope.
Notation "m ;; k" := (bind m (fun _ => k))
  (at level 61, right associativity) : prog_scope.

Definition print (l : line) : prog unit := ([Print l], Cont tt).

Definition return_ {A} (report : option AggregateReport) : prog A :=
  ([], Halt (Returned report)).

Definition raise {A} (e : exn) : prog A := ([], Halt (Raised e)).

Fixpoint print_all (ls : list line) : prog unit :=
  match ls with
  | [] => ret tt
  | l :: ls' => (print l ;; print_all ls')%prog
  end.

(** [float(z)]. *)
Definition py_float (z : Z) : prog float :=
  match PyFloat.float_of_int z with
  | Some f => ret f
  | None => raise OverflowError
  end.

(** [x / z] for a float [x] and an int [z]: [z] is converted first; the
    converted divisor is [0.0] exactly when [z] is [0], a non-zero integer
    converting to a float of magnitude at least one. *)
Definition truediv_float_int (x : float) (z : Z) : prog float :=
  match PyFloat.float_of_int z with
  | None => raise OverflowError
  | Some d => if z =? 0 then raise ZeroDivisionError else ret (x / d)%float
  end.

(** [pool.starmap(func, starmap_args)] inside
    [with Pool(processes=PREPROC_WORKERS, ...)]. *)
Definition starmap (w : World) (processes : positive) (func : tokenizer)
    (jobs : list JobDescriptor) : prog (list StatsTuple) :=
  ([Starmap processes func jobs], Cont (pool_starmap w processes func jobs)).

(** Where a call of [main] ends when its last statement is done. *)
Definition run (m : prog (option AggregateReport)) : list event * outcome :=
  match m with
  | (t, Cont report) => (t, Returned report)
  | (t, Halt o) => (t, o)
  end.

(* ================================================================== *)
(** ** [main] *)
(* ================================================================== *)

Definition shard_pattern : string := "*.mid.compound.txt".

(** Line 15. *)
Definition encoding (args : Args) : string :=
  if interarrival args then "interarrival" else "arrival".

(** Lines 16 to 25. *)
Definition banner (cfg : Config) (args : Args) : list line :=
  [ [Lit "Tokenizing preprocessed MIDI files from: "; Hole (PStr (datadir args))];
    [Lit "  Encoding type: "; Hole (PStr (encoding args))];
    [Lit "Tokenization parameters:"];
    [Lit "  Anticipation interval = "; Hole (PInt (DELTA cfg)); Lit "s"];
    [Lit "  Augment = "; Hole (PInt (augment args)); Lit "x"];
    [Lit "  Max track length = "; Hole (PInt (MAX_TRACK_TIME_IN_SECONDS cfg)); Lit "s"];
    [Lit "  Min track length = "; Hole (PInt (MIN_TRACK_TIME_IN_SECONDS cfg)); Lit "s"];
    [Lit "  Min track events = "; Hole (PInt (MIN_TRACK_EVENTS cfg))] ].

(** Line 28. *)
Definition input_files (w : World) (args : Args) : list string :=
  sorted (PyPath.glob (listdir w) (PyPath.join (datadir args) shard_pattern)).

(** Line 37. *)
Definition output_file (args : Args) : string :=
  PyPath.join (datadir args) "tokenized-events-all.txt".

(** Line 42. *)
Definition func (args : Args) : tokenizer :=
  if interarrival args then tokenize_ia else tokenize.

(** Lines 40 and 48 to 50. *)
Definition starmap_args (w : World) (args : Args) : list JobDescriptor :=
  let current_augment_factor := augment args in
  [ {| Job.input_files := input_files w args;
       Job.output_destination := output_file args;
       Job.augmentation_factor := current_augment_factor;
       Job.slot_index := 0 |} ].

(** Lines 78 to 89. *)
Definition report_lines (cfg : Config) (r : AggregateReport) : list line :=
  [ [Lit "Tokenization complete."];
    [Lit "  => Output file: "; Hole (PStr (Report.output_file r))];
    [Lit "  => Processed "; Hole (PInt (Report.seq_count r)); Lit " sequences"];
    [Lit "  => Inserted "; Hole (PInt (Report.rest_count r));
     Lit " REST tokens ("; Hole (Report.rest_ratio r); Lit "% of events)"];
    [Lit "  => Discarded ";
     Hole (PInt (Report.too_short r + Report.too_long r));
     Lit " event sequences"];
    [Lit "      - "; Hole (PInt (Report.too_short r));
     Lit " too short (less than "; Hole (PInt (MIN_TRACK_EVENTS cfg));
     Lit " events or "; Hole (PInt (MIN_TRACK_TIME_IN_SECONDS cfg)); Lit "s)"];
    [Lit "      - "; Hole (PInt (Report.too_long r));
     Lit " too long (more than "; Hole (PInt (MAX_TRACK_TIME_IN_SECONDS cfg));
     Lit "s)"];
    [Lit "      - "; Hole (PInt (Report.too_manyinstr r));
     Lit " had too many instruments"];
    [Lit "  => Discarded "; Hole (PInt (Report.discarded_seqs r));
     Lit " sequences (e.g. empty after filtering)"];
    [Lit "  => Truncated "; Hole (PInt (Report.truncations r)); Lit " ";
     Hole (PStr (Report.trunc_type r)); Lit " times (";
     Hole (Report.trunc_ratio r); Lit "% of ";
     Hole (PStr (Report.trunc_type r)); Lit "s)"];
    [Lit "If this tokenized data is intended for training, remember to shuffle it afterwards."] ].

(** Lines 59 to 76: the result list is refused when empty; otherwise its
    first tuple is unpacked and the two ratios are derived from it. *)
Definition aggregate (cfg : Config) (args : Args) (results : list StatsTuple)
  : prog AggregateReport :=
  match results with
  | [] =>
      (print [Lit "Tokenization did not return any results. This might indicate an issue."] ;;
       return_ None)%prog
  | r0 :: _ =>
      let seq_count := sequence_count r0 in
      let rest_count := rest_token_count r0 in
      let too_short := too_short_count r0 in
      let too_long := too_long_count r0 in
      let too_manyinstr := too_many_instruments_count r0 in
      let discarded_seqs := discarded_sequence_count r0 in
      let truncations := truncation_count r0 in
      (ratios <-
         (if (seq_count >? 0) && (M cfg >? 0) then
            x <- py_float rest_count ;;
            q <- truediv_float_int (100 * x)%float (seq_count * M cfg) ;;
            let rest_ratio := PyFloat.py_round q 2 in
            let trunc_type : string :=
              (if interarrival args then "interarrival" else "duration")%string in
            y <- py_float truncations ;;
            q' <- truediv_float_int (100 * y)%float (seq_count * M cfg) ;;
            let trunc_ratio := PyFloat.py_round q' 2 in
            ret (PFloat rest_ratio, trunc_type, PFloat trunc_ratio)
          else
            let trunc_type : string :=
              (if interarrival args then "interarrival" else "duration")%string in
            ret (PInt 0, trunc_type, PInt 0)) ;;
       let '(rest_ratio, trunc_type, trunc_ratio) := ratios in
       ret {| Report.output_file := output_file args;
              Report.seq_count := seq_count;
              Report.rest_count := rest_count;
              Report.too_short := too_short;
              Report.too_long := too_long;
              Report.too_manyinstr := too_manyinstr;
              Report.discarded_seqs := discarded_seqs;
              Report.truncations := truncations;
              Report.rest_ratio := rest_ratio;
              Report.trunc_type := trunc_type;
              Report.trunc_ratio := trunc_ratio |})%prog
  end.

(** The body of [main], lines 15 to 89. *)
Definition main_body (cfg : Config) (w : World) (args : Args)
  : prog (option AggregateReport) :=
  (print_all (banner cfg args) ;;
   let input_files := input_files w args in
   match input_files with
   | [] =>
       print [Lit "No '*.mid.compound.txt' files found in ";
              Hole (PStr (datadir args))] ;;
       return_ None
   | _ :: _ =>
       print [Lit "Found "; Hole (PInt (Z.of_nat (List.length input_files)));
              Lit " files to process."] ;;
       results <- starmap w (PREPROC_WORKERS cfg) (func args) (starmap_args w args) ;;
       report <- aggregate cfg args results ;;
       print_all (report_lines cfg report) ;;
       ret (Some report)
   end)%prog.

Definition main (cfg : Config) (w : World) (args : Args)
  : list event * outcome :=
  run (main_body cfg w args).

(** A pool that runs the routine once per job and collects the results in
    submission order, as [multiprocessing.Pool.starmap] does. *)
Definition faithful_pool (run_tokenizer : tokenizer -> JobDescriptor -> StatsTuple)
  : positive -> tokenizer -> list JobDescriptor -> list StatsTuple :=
  fun _ f jobs => map (run_tokenizer f) jobs.

(* ================================================================== *)
(** ** What the specification speaks of *)
(* ================================================================== *)

(** The result list [main] gets from the pool. *)
Definition dispatched (cfg : Config) (w : World) (args : Args) : list StatsTuple :=
  pool_starmap w (PREPROC_WORKERS cfg) (func args) (starmap_args w args).

(** The directory [glob] lists for [args.datadir]. *)
Definition source_directory (args : Args) : string :=
  let dirname := fst (PyPath.split (PyPath.join (datadir args) shard_pattern)) in
  if PyPath.is_empty dirname then "." else dirname.

(** The naming suffix of a preprocessed shard. *)
Definition shard_suffix : string := ".mid.compound.txt".

Fixpoint endswith (suffix name : string) : bool :=
  String.eqb name suffix ||
  match name with
  | EmptyString => false
  | String _ name' => endswith suffix name'
  end.

(** An entry of the directory that discovery keeps: its name ends with
    the shard suffix and does not start with a dot. *)
Definition is_shard (name : string) : bool :=
  negb (PyPath.ishidden name) && endswith shard_suffix name.

(** A pattern without wildcard: it matches its own text only. *)
Fixpoint literal (pat : string) : bool :=
  match pat with
  | EmptyString => true
  | String c pat' =>
      negb (Ascii.eqb c "*") && negb (Ascii.eqb c "?") && literal pat'
  end.

(** The path [glob] reports for the entry [name] of the source directory. *)
Definition shard_path (args : Args) (name : string) : string :=
  let dirname := fst (PyPath.split (PyPath.join (datadir args) shard_pattern)) in
  if PyPath.is_empty dirname then name else PyPath.join dirname name.

(** The shards of the source directory, as paths, in listing order. *)
Definition discovered (w : World) (args : Args) : list string :=
  map (shard_path args) (filter is_shard (listdir w (source_directory args))).





(** [round(100 * float(count) / (seq_count * unit_length), 2)]; [None]
    when a count is beyond what [float] converts. *)
Definition percent_ratio (count seq_count unit_length : Z) : option float :=
  match PyFloat.float_of_int count,
        PyFloat.float_of_int (seq_count * unit_length) with
  | Some x, Some d => Some (PyFloat.py_round (100 * x / d)%float 2)
  | _, _ => None
  end.

(** The two diagnostics and the line that opens a report. *)
Definition no_input_diagnostic (args : Args) : line :=
  [Lit "No '*.mid.compound.txt' files found in "; Hole (PStr (datadir args))].

Definition empty_result_diagnostic : line :=
  [Lit "Tokenization did not return any results. This might indicate an issue."].

Definition found_line (n : nat) : line :=
  [Lit "Found "; Hole (PInt (Z.of_nat n)); Lit " files to process."].

(** The expression of lines 71 and 73,
    [round(100 * float(count) / (seq_count * unit_length), 2)], when both
    conversions succeed: the percentage as [main] computes it, in the
    arithmetic of doubles. *)
Definition percentage (count seq_count unit_length : Z) : float :=
  PyFloat.py_round
    (100 * PyFloat.nearest_float count
     / PyFloat.nearest_float (seq_count * unit_length))%float 2.

(** The label of the truncation line for an encoding mode. *)
Definition truncation_label (ia : bool) : string :=
  if ia then "interarrival" else "duration".

(** The report whose counts are those of the tuple [r0], with the two
    ratios given. *)
Definition report_of (args : Args) (r0 : StatsTuple)
    (rest_ratio trunc_ratio : pyval) : AggregateReport :=
  {| Report.output_file := output_file args;
     Report.seq_count := sequence_count r0;
     Report.rest_count := rest_token_count r0;
     Report.too_short := too_short_count r0;
     Report.too_long := too_long_count r0;
     Report.too_manyinstr := too_many_instruments_count r0;
     Report.discarded_seqs := discarded_sequence_count r0;
     Report.truncations := truncation_count r0;
     Report.rest_ratio := rest_ratio;
     Report.trunc_type := truncation_label (interarrival args);
     Report.trunc_ratio := trunc_ratio |}.

(** The events of [main] up to and including the call on the pool. *)
Definition dispatch_prefix (cfg : Config) (w : World) (args : Args) : list event :=
  map Print (banner cfg args)
  ++ [Print (found_line (List.length (input_files w args)));
      Starmap (PREPROC_WORKERS cfg) (func args) (starmap_args w args)].

(** The events of a trace that hand work to the pool. *)
Definition is_dispatch (e : event) : bool :=
  match e with
  | Starmap _ _ _ => true
  | Print _ => false
  end.

Definition dispatches (t : list event) : list event := filter is_dispatch t.

(** The job lists handed to the pool along a trace. *)
Fixpoint jobs_dispatched (t : list event) : list JobDescriptor :=
  match t with
  | [] => []
  | Starmap _ _ jobs :: t' => jobs ++ jobs_dispatched t'
  | Print _ :: t' => jobs_dispatched t'
  end.

(** The lines a trace prints. *)
Fixpoint printed (t : list event) : list line :=
  match t with
  | [] => []
  | Print l :: t' => l :: printed t'
  | Starmap _ _ _ :: t' => printed t'
  end.

(** The "Discarded N event sequences" line for a total [n]. *)
Definition discarded_line (n : Z) : line :=
  [Lit "  => Discarded "; Hole (PInt n); Lit " event sequences"].

(** The sub-item and the separate line that carry the two other counts. *)
Definition too_many_instruments_line (n : Z) : line :=
  [Lit "      - "; Hole (PInt n); Lit " had too many instruments"].

Definition discarded_sequences_line (n : Z) : line :=
  [Lit "  => Discarded "; Hole (PInt n);
   Lit " sequences (e.g. empty after filtering)"].

(** The "Truncated ..." line of a report. *)
Definition truncated_line (n : Z) (label : string) (ratio : pyval) : line :=
  [Lit "  => Truncated "; Hole (PInt n); Lit " "; Hole (PStr label);
   Lit " times ("; Hole ratio; Lit "% of "; Hole (PStr label); Lit "s)"].

(* ================================================================== *)
(** ** Further notions: paths, runs and their endings *)
(* ================================================================== *)

(** [glob.has_magic]: the text holds one of the characters [*], [?] and
    the opening bracket, which [glob] expands also in the directory part
    of a pathname.  The model of [glob] above is the one of a directory
    part without them. *)
Fixpoint has_magic (s : string) : bool :=
  match s with
  | EmptyString => false
  | String c s' =>
      Ascii.eqb c "*" || Ascii.eqb c "?" || Ascii.eqb c "[" || has_magic s'
  end.

(** Lines 59 to 89: what [main] does once the pool has returned
    [results]. *)
Definition after_pool (cfg : Config) (args : Args) (results : list StatsTuple)
  : prog (option AggregateReport) :=
  (report <- aggregate cfg args results ;;
   print_all (report_lines cfg report) ;;
   ret (Some report))%prog.

(** The name of the consolidated output file (line 37). *)
Definition consolidated_name : string := "tokenized-events-all.txt".

(** [os.path.dirname] and [os.path.basename]. *)
Definition dirname (p : string) : string := fst (PyPath.split p).

Definition basename (p : string) : string := snd (PyPath.split p).

(** What [os.path.join] puts in front of a relative last component. *)
Definition dir_prefix (d : string) : string :=
  if PyPath.is_empty d || PyPath.endswith_sep d then d
  else (d ++ String PyPath.sep "")%string.

(** What [os.path.split] makes of the part up to the last separator. *)
Definition norm_head (head : string) : string :=
  if negb (PyPath.is_empty head) && negb (PyPath.all_sep head)
  then PyPath.rstrip_sep head else head.

(** The same command line with another directory argument. *)
Definition with_datadir (d : string) (args : Args) : Args :=
  {| datadir := d; augment := augment args; interarrival := interarrival args |}.

(** The second line of the banner (line 17). *)
Definition encoding_line (e : string) : line :=
  [Lit "  Encoding type: "; Hole (PStr e)].

(** Whether an interpolated ratio is a float (printed [0.0]) or the
    integer it was initialised with (printed [0]). *)
Definition is_float (v : pyval) : bool :=
  match v with
  | PFloat _ => true
  | _ => false
  end.

(** A count that [float] refuses. *)
Definition beyond_float (z : Z) : Prop :=
  PyFloat.float_overflow_bound <= Z.abs z.

(* ================================================================== *)
(** ** Doubles as rational numbers *)
(* ================================================================== *)










(* ================================================================== *)
(** ** Sample data *)
(* ================================================================== *)

Module Sample.

Definition cfg : Config :=
  {| DELTA := 5; MAX_TRACK_TIME_IN_SECONDS := 3600;
     MIN_TRACK_TIME_IN_SECONDS := 10; MIN_TRACK_EVENTS := 100;
     PREPROC_WORKERS := 16%positive; M := 20 |}.

Definition stats : StatsTuple :=
  {| sequence_count := 100; rest_token_count := 50; too_short_count := 4;
     too_long_count := 3; too_many_instruments_count := 2;
     discarded_sequence_count := 1; truncation_count := 10 |}.

Definition stats' : StatsTuple :=
  {| sequence_count := 7; rest_token_count := 1; too_short_count := 0;
     too_long_count := 1; too_many_instruments_count := 0;
     discarded_sequence_count := 2; truncation_count := 3 |}.

(** A tuple whose rest count is beyond the range of a double. *)
Definition huge : StatsTuple :=
  {| sequence_count := 1; rest_token_count := 2 ^ 1024; too_short_count := 0;
     too_long_count := 0; too_many_instruments_count := 0;
     discarded_sequence_count := 0; truncation_count := 0 |}.

Definition no_sequences : StatsTuple :=
  {| sequence_count := 0; rest_token_count := 0; too_short_count := 5;
     too_long_count := 0; too_many_instruments_count := 1;
     discarded_sequence_count := 0; truncation_count := 0 |}.

(** A directory [data] with three shards, a hidden file and a stray one,
    enumerated in no particular order. *)
Definition entries : list string :=
  ["b.mid.compound.txt"; "notes.txt"; "c.mid.compound.txt";
   ".tmp.mid.compound.txt"; "a.mid.compound.txt"]%string.

Definition shards : list string :=
  ["data/a.mid.compound.txt"; "data/b.mid.compound.txt";
   "data/c.mid.compound.txt"]%string.

Definition ls (names : list string) (d : string) : list string :=
  if String.eqb d "data" then names else [].

(** A world whose pool answers [results] whatever it is given. *)
Definition world (names : list string) (results : list StatsTuple) : World :=
  {| listdir := ls names;
     pool_starmap := fun _ _ _ => results |}.

(** A world whose pool runs [run_tokenizer] once per job. *)
Definition faithful_world (names : list string)
    (run_tokenizer : tokenizer -> JobDescriptor -> StatsTuple) : World :=
  {| listdir := ls names; pool_starmap := faithful_pool run_tokenizer |}.

Definition hidden_shard : string := ".tmp.mid.compound.txt".

(** A world in which no directory has any entry. *)
Definition empty_world : World :=
  {| listdir := fun _ => []; pool_starmap := faithful_pool (fun _ _ => stats) |}.

Definition args : Args :=
  {| datadir := "data"; augment := 2; interarrival := false |}.

Definition args_ia : Args :=
  {| datadir := "data"; augment := 1; interarrival := true |}.

End Sample.

(** Further sample data. *)
Module Sample2.

(** The sample directory once a run has written its output into it. *)
Definition entries_after_run : list string :=
  ["b.mid.compound.txt"; "notes.txt"; "tokenized-events-all.txt";
   "c.mid.compound.txt"; ".tmp.mid.compound.txt"; "a.mid.compound.txt"]%string.

Definition args_slash : Args :=
  {| datadir := "data/"; augment := 2; interarrival := false |}.

(** A tuple with sequences but neither rest nor truncation. *)
Definition quiet : StatsTuple :=
  {| sequence_count := 3; rest_token_count := 0; too_short_count := 0;
     too_long_count := 0; too_many_instruments_count := 0;
     discarded_sequence_count := 0; truncation_count := 0 |}.

End Sample2.

Module Sample3.




End Sample3.

(* ================================================================== *)
(** ** The model on concrete values *)
(* ================================================================== *)

(** Values of Python's [round], [float], [os.path], [fnmatch] and [sorted]
    that the definitions above reproduce. *)

Example round_tie_to_even_down :
  PyFloat.py_round 0.125%float 2 = 0x1.eb851eb851eb8p-4%float.
Proof. reflexivity. Qed.

Example round_tie_to_even_up :
  PyFloat.py_round 0.375%float 2 = 0x1.851eb851eb852p-2%float.
Proof. reflexivity. Qed.

(** [round(2.675, 2) == 2.67]: the double below 2.675 is rounded. *)
Example round_binary_value :
  PyFloat.py_round 0x1.5666666666666p+1%float 2 = 0x1.55c28f5c28f5cp+1%float.
Proof. reflexivity. Qed.

(** [round(-0.001, 2) == -0.0]. *)
Example round_keeps_sign :
  PyFloat.py_round (-0x1.0624dd2f1a9fcp-10)%float 2 = neg_zero.
Proof. reflexivity. Qed.

Example round_infinity : PyFloat.py_round infinity 2 = infinity.
Proof. reflexivity. Qed.

Example float_of_int_rounds :
  PyFloat.float_of_int (2 ^ 53 + 1) = Some 0x1p+53%float.
Proof. reflexivity. Qed.

Example float_of_int_largest :
  PyFloat.float_of_int (PyFloat.float_overflow_bound - 1)
  = Some 0x1.fffffffffffffp+1023%float.
Proof. vm_compute. reflexivity. Qed.

Example float_of_int_overflow :
  PyFloat.float_of_int PyFloat.float_overflow_bound = None /\
  PyFloat.nearest_float PyFloat.float_overflow_bound = infinity.
Proof. split; vm_compute; reflexivity. Qed.

(** [round(100 * float(1) / (3 * 1), 2) == 33.33]. *)
Example percentage_third : percentage 1 3 1 = 0x1.0aa3d70a3d70ap+5%float.
Proof. reflexivity. Qed.

(** [100 * 3 / 20000] is 0.015 and [round] gives 0.01: the quotient, as a
    double, lies below 0.015. *)
Example percentage_near_tie : percentage 3 1000 20 = 0x1.47ae147ae147bp-7%float.
Proof. reflexivity. Qed.

Example join_plain : PyPath.join "data" "x.txt" = "data/x.txt"%string.
Proof. reflexivity. Qed.

Example join_trailing_sep : PyPath.join "data/" "x.txt" = "data/x.txt"%string.
Proof. reflexivity. Qed.

Example join_empty : PyPath.join "" "x.txt" = "x.txt"%string.
Proof. reflexivity. Qed.

Example split_plain : PyPath.split "a/b/c.txt" = ("a/b", "c.txt")%string.
Proof. reflexivity. Qed.

Example split_strips_seps : PyPath.split "a//c" = ("a", "c")%string.
Proof. reflexivity. Qed.

Example split_root : PyPath.split "/c" = ("/", "c")%string.
Proof. reflexivity. Qed.

Example fnmatch_shard :
  PyPath.fnmatch shard_pattern "a.mid.mid.compound.txt" = true.
Proof. reflexivity. Qed.

Example fnmatch_not_shard :
  PyPath.fnmatch shard_pattern "a.mid.compound.txt.bak" = false.
Proof. reflexivity. Qed.

Example glob_skips_hidden :
  PyPath.glob (Sample.ls Sample.entries) "data/*.mid.compound.txt"
  = ["data/b.mid.compound.txt"; "data/c.mid.compound.txt";
     "data/a.mid.compound.txt"]%string.
Proof. reflexivity. Qed.

Example glob_current_directory :
  PyPath.glob (fun d => if String.eqb d "." then Sample.entries else [])
              (PyPath.join "" shard_pattern)
  = ["b.mid.compound.txt"; "c.mid.compound.txt"; "a.mid.compound.txt"]%string.
Proof. reflexivity. Qed.

Example sorted_by_code_point :
  sorted ["b/2"; "a/10"; "a/1"; "B"]%string = ["B"; "a/1"; "a/10"; "b/2"]%string.
Proof. reflexivity. Qed.

(** The run of the sample invocation: three shards, augmentation factor
    2, arrival-time encoding. *)
Example main_sample_run :
  main Sample.cfg (Sample.faithful_world Sample.entries (fun _ _ => Sample.stats))
       Sample.args
  = (map Print (banner Sample.cfg Sample.args)
     ++ [Print (found_line 3);
         Starmap 16 tokenize
           [ {| Job.input_files := Sample.shards;
                Job.output_destination := "data/tokenized-events-all.txt";
                Job.augmentation_factor := 2;
                Job.slot_index := 0 |} ]]
     ++ map Print
          (report_lines Sample.cfg
             (report_of Sample.args Sample.stats (PFloat 2.5) (PFloat 0.5))),
     Returned (Some (report_of Sample.args Sample.stats (PFloat 2.5) (PFloat 0.5)))).
Proof. vm_compute. reflexivity. Qed.

(* ================================================================== *)
(** ** The order of strings and the sorted list *)
(* ================================================================== *)

Section StringOrder.

Lemma str_le_lt_eq a b : str_le a b <-> String_as_OT.lt a b \/ a = b.
Proof.
  unfold str_le, String.leb.
  destruct (String.compare a b) eqn:E.
  - apply String_as_OT.cmp_eq in E. tauto.
  - apply String_as_OT.cmp_lt in E. tauto.
  - split; [discriminate |].
    intros [H | H].
    + apply String_as_OT.cmp_lt in H. unfold String_as_OT.cmp in H. congruence.
    + apply String_as_OT.cmp_eq in H. unfold String_as_OT.cmp in H. congruence.
Qed.

Lemma str_le_trans a b c : str_le a b -> str_le b c -> str_le a c.
Proof.
  rewrite !str_le_lt_eq.
  intros [Hab | ->] [Hbc | <-]; auto.
  left. eapply String_as_OT.lt_trans; eassumption.
Qed.

Lemma str_le_antisym a b : str_le a b -> str_le b a -> a = b.
Proof. apply String.leb_antisym. Qed.

Lemma StrOrder_leb_trans : Transitive (fun a b => is_true (StrOrder.leb a b)).
Proof. intros a b c. apply str_le_trans. Qed.

End StringOrder.

Section SortedUnique.

Variable A : Type.
Variable R : A -> A -> Prop.
Hypothesis R_antisym : forall a b, R a b -> R b a -> a = b.

(** Two sorted lists with the same elements are the same list. *)
Lemma sorted_perm_unique (l1 : list A) :
  forall l2, StronglySorted R l1 -> StronglySorted R l2 ->
             Permutation l1 l2 -> l1 = l2.
Proof.
  induction l1 as [| a l1 IH]; intros l2 S1 S2 P.
  - apply Permutation_nil in P. now subst.
  - destruct l2 as [| b l2].
    + apply Permutation_sym, Permutation_nil in P. discriminate.
    + inversion S1 as [| ? ? S1' F1]; subst.
      inversion S2 as [| ? ? S2' F2]; subst.
      assert (a = b) as ->.
      { assert (Ha : In a (b :: l2))
          by (eapply Permutation_in; [exact P | now left]).
        assert (Hb : In b (a :: l1))
          by (eapply Permutation_in; [exact (Permutation_sym P) | now left]).
        destruct Ha as [-> | Ha]; [reflexivity |].
        destruct Hb as [-> | Hb]; [reflexivity |].
        rewrite Forall_forall in F1, F2.
        apply R_antisym; auto. }
      f_equal. apply IH; auto.
      eapply Permutation_cons_inv; exact P.
Qed.

End SortedUnique.

Lemma sorted_StronglySorted l : StronglySorted str_le (sorted l).
Proof. apply (StrSort.StronglySorted_sort l StrOrder_leb_trans). Qed.

Lemma sorted_Permutation l : Permutation l (sorted l).
Proof. apply StrSort.Permuted_sort. Qed.

Lemma sorted_length l : List.length (sorted l) = List.length l.
Proof. symmetry. apply Permutation_length, sorted_Permutation. Qed.

Lemma sorted_nil_iff l : sorted l = [] <-> l = [].
Proof.
  split; intros H.
  - apply Permutation_nil. rewrite <- H. apply Permutation_sym, sorted_Permutation.
  - subst. reflexivity.
Qed.

(** [sorted] only depends on the elements, not on their order. *)
Lemma sorted_perm_invariant l l' : Permutation l l' -> sorted l = sorted l'.
Proof.
  intros P.
  apply (sorted_perm_unique _ str_le str_le_antisym);
    try apply sorted_StronglySorted.
  eapply Permutation_trans; [apply Permutation_sym, sorted_Permutation |].
  eapply Permutation_trans; [exact P | apply sorted_Permutation].
Qed.

(** The sorted list is the only sorted arrangement of its elements. *)
Lemma sorted_characterised l s :
  StronglySorted str_le s -> Permutation l s -> sorted l = s.
Proof.
  intros S P.
  apply (sorted_perm_unique _ str_le str_le_antisym);
    auto using sorted_StronglySorted.
  eapply Permutation_trans; [apply Permutation_sym, sorted_Permutation | exact P].
Qed.

Lemma filter_Permutation {A} (f : A -> bool) l l' :
  Permutation l l' -> Permutation (filter f l) (filter f l').
Proof.
  induction 1; simpl.
  - constructor.
  - destruct (f x); auto.
  - destruct (f x), (f y); auto using perm_swap.
  - eapply Permutation_trans; eassumption.
Qed.

(* ================================================================== *)
(** ** Discovery: the pattern, the directory and the file list *)
(* ================================================================== *)

Lemma filter_filter {A} (f g : A -> bool) l :
  filter f (filter g l) = filter (fun x => g x && f x) l.
Proof.
  induction l as [| a l IH]; simpl; [reflexivity |].
  destruct (g a); simpl; [destruct (f a) |]; now rewrite IH.
Qed.

Lemma is_empty_eqb n : PyPath.is_empty n = String.eqb n "".
Proof. now destruct n. Qed.

Lemma fnmatch_literal pat :
  literal pat = true -> forall name, PyPath.fnmatch pat name = String.eqb name pat.
Proof.
  induction pat as [| c pat IH]; intros L name.
  - apply is_empty_eqb.
  - simpl in L. apply andb_prop in L as [L L3]. apply andb_prop in L as [L1 L2].
    apply negb_true_iff in L1, L2.
    simpl. rewrite L1, L2.
    destruct name as [| d name]; [reflexivity |].
    simpl. rewrite (Ascii.eqb_sym d c), IH by assumption. reflexivity.
Qed.

Lemma fnmatch_star_step pat d name :
  PyPath.fnmatch (String "*" pat) (String d name) =
  PyPath.fnmatch pat (String d name) || PyPath.fnmatch (String "*" pat) name.
Proof. reflexivity. Qed.

(** [*suffix] matches exactly the names that end with [suffix]. *)
Lemma fnmatch_star_suffix suffix :
  literal suffix = true ->
  forall name, PyPath.fnmatch (String "*" suffix) name = endswith suffix name.
Proof.
  intros L name.
  induction name as [| d name IH].
  - change (PyPath.fnmatch suffix "" || false = String.eqb "" suffix || false).
    now rewrite (fnmatch_literal _ L).
  - change (endswith suffix (String d name))
      with (String.eqb (String d name) suffix || endswith suffix name).
    rewrite fnmatch_star_step, IH, (fnmatch_literal _ L). reflexivity.
Qed.

Lemma endswith_nil suffix : endswith suffix "" = String.eqb "" suffix || false.
Proof. reflexivity. Qed.

Lemma endswith_cons suffix d name :
  endswith suffix (String d name)
  = String.eqb (String d name) suffix || endswith suffix name.
Proof. reflexivity. Qed.

Lemma endswith_app suffix name :
  endswith suffix name = true <-> exists stem, name = (stem ++ suffix)%string.
Proof.
  induction name as [| d name IH].
  - rewrite endswith_nil, orb_false_r, String.eqb_eq. split.
    + intros <-. now exists ""%string.
    + intros [[| c stem] H]; simpl in H; [auto | discriminate].
  - rewrite endswith_cons, orb_true_iff, String.eqb_eq, IH. split.
    + intros [<- | [stem ->]]; [now exists ""%string | now exists (String d stem)].
    + intros [[| c stem] H]; simpl in H; [now left |].
      injection H as -> ->. right. now exists stem.
Qed.

Lemma glob1_shards entries :
  PyPath.glob1 entries shard_pattern = filter is_shard entries.
Proof.
  unfold PyPath.glob1. change (PyPath.ishidden shard_pattern) with false. cbv iota.
  rewrite filter_filter. apply filter_ext. intros name.
  unfold is_shard. f_equal.
  apply (fnmatch_star_suffix shard_suffix). reflexivity.
Qed.

Lemma has_sep_app a b :
  PyPath.has_sep (a ++ b) = PyPath.has_sep a || PyPath.has_sep b.
Proof.
  induction a as [| c a IH]; simpl; [reflexivity |].
  now rewrite IH, orb_assoc.
Qed.

Lemma cut_tail_no_sep b :
  PyPath.has_sep b = false -> PyPath.cut_after_last_sep b = (""%string, b).
Proof.
  destruct b as [| c b]; simpl; [reflexivity |]. now intros ->.
Qed.

Lemma cut_tail_app a b :
  PyPath.has_sep b = false ->
  snd (PyPath.cut_after_last_sep (a ++ b)) =
  (snd (PyPath.cut_after_last_sep a) ++ b)%string.
Proof.
  intros Hb. induction a as [| c a IH].
  - simpl. now rewrite cut_tail_no_sep.
  - simpl. rewrite has_sep_app, Hb, orb_false_r.
    destruct (PyPath.is_sep c || PyPath.has_sep a).
    + destruct (PyPath.cut_after_last_sep (a ++ b)) as [h t].
      destruct (PyPath.cut_after_last_sep a) as [h' t']. exact IH.
    + reflexivity.
Qed.

Lemma has_sep_cons c s :
  PyPath.has_sep (String c s) = PyPath.is_sep c || PyPath.has_sep s.
Proof. reflexivity. Qed.

Lemma cut_cons c s :
  PyPath.cut_after_last_sep (String c s)
  = if PyPath.is_sep c || PyPath.has_sep s
    then (String c (fst (PyPath.cut_after_last_sep s)),
          snd (PyPath.cut_after_last_sep s))
    else (""%string, String c s).
Proof.
  simpl. destruct (PyPath.is_sep c || PyPath.has_sep s); [| reflexivity].
  now destruct (PyPath.cut_after_last_sep s).
Qed.

Lemma endswith_sep_has_sep a :
  PyPath.endswith_sep a = true -> PyPath.has_sep a = true.
Proof.
  induction a as [| c a IH]; [discriminate |].
  destruct a as [| c' a]; intros H.
  - simpl in H. simpl. now rewrite H.
  - rewrite has_sep_cons, IH by exact H. apply orb_true_r.
Qed.

Lemma cut_tail_endswith_sep a :
  PyPath.endswith_sep a = true -> snd (PyPath.cut_after_last_sep a) = ""%string.
Proof.
  induction a as [| c a IH]; [discriminate |].
  destruct a as [| c' a]; intros H.
  - simpl in H. simpl. rewrite H. reflexivity.
  - assert (H' : PyPath.endswith_sep (String c' a) = true) by exact H.
    rewrite cut_cons, (endswith_sep_has_sep _ H'), orb_true_r.
    apply IH. exact H'.
Qed.

Lemma endswith_sep_snoc a : PyPath.endswith_sep (a ++ String PyPath.sep "") = true.
Proof.
  induction a as [| c a IH]; [reflexivity |].
  simpl. destruct (a ++ String PyPath.sep "")%string eqn:E; [| exact IH].
  destruct a; discriminate.
Qed.

Lemma append_snoc a c b : (a ++ String c b = (a ++ String c "") ++ b)%string.
Proof. induction a as [| d a IH]; simpl; [reflexivity | now rewrite IH]. Qed.

(** The last component of the pathname [main] globs is the pattern. *)
Lemma split_pattern d :
  snd (PyPath.split (PyPath.join d shard_pattern)) = shard_pattern.
Proof.
  assert (Hp : PyPath.has_sep shard_pattern = false) by reflexivity.
  assert (T : snd (PyPath.cut_after_last_sep (PyPath.join d shard_pattern))
              = shard_pattern).
  { unfold PyPath.join. change (PyPath.startswith_sep shard_pattern) with false.
    cbv iota.
    destruct (PyPath.is_empty d || PyPath.endswith_sep d) eqn:E.
    - rewrite (cut_tail_app _ _ Hp).
      apply orb_prop in E as [E | E].
      + destruct d; [reflexivity | discriminate].
      + now rewrite cut_tail_endswith_sep.
    - rewrite append_snoc, (cut_tail_app _ _ Hp).
      now rewrite cut_tail_endswith_sep by apply endswith_sep_snoc. }
  unfold PyPath.split.
  destruct (PyPath.cut_after_last_sep (PyPath.join d shard_pattern)) as [h t].
  exact T.
Qed.

(** [glob] on the pathname of [main] lists the shards of the source
    directory. *)
Lemma glob_discovered w args :
  PyPath.glob (listdir w) (PyPath.join (datadir args) shard_pattern)
  = discovered w args.
Proof.
  unfold discovered, shard_path, source_directory, PyPath.glob.
  pose proof (split_pattern (datadir args)) as T.
  destruct (PyPath.split (PyPath.join (datadir args) shard_pattern)) as [dn bn].
  simpl in T. subst bn. cbn [fst].
  destruct (PyPath.is_empty dn).
  - rewrite glob1_shards. symmetry. apply map_id.
  - now rewrite glob1_shards.
Qed.

Lemma input_files_discovered w args :
  input_files w args = sorted (discovered w args).
Proof. unfold input_files. now rewrite glob_discovered. Qed.

Lemma discovered_length w args :
  List.length (discovered w args)
  = List.length (filter is_shard (listdir w (source_directory args))).
Proof. unfold discovered. apply length_map. Qed.

Lemma input_files_nil_iff w args :
  input_files w args = [] <->
  filter is_shard (listdir w (source_directory args)) = [].
Proof.
  rewrite input_files_discovered, sorted_nil_iff. unfold discovered.
  split; intros H.
  - now apply map_eq_nil in H.
  - now rewrite H.
Qed.

(** Listing the directory in another order gives the same file list. *)
Lemma input_files_listing_order w w' args :
  (forall d, Permutation (listdir w d) (listdir w' d)) ->
  input_files w args = input_files w' args.
Proof.
  intros P. rewrite !input_files_discovered.
  apply sorted_perm_invariant. unfold discovered.
  apply Permutation_map, filter_Permutation, P.
Qed.

(* ================================================================== *)
(** ** The runs of [main] *)
(* ================================================================== *)

Lemma print_all_events ls : print_all ls = (map Print ls, Cont tt).
Proof.
  induction ls as [| l ls IH]; [reflexivity |].
  simpl. rewrite IH. reflexivity.
Qed.

Lemma aggregate_nil cfg args :
  aggregate cfg args [] = ([Print empty_result_diagnostic], Halt (Returned None)).
Proof. reflexivity. Qed.

(** Outside the guard of line 70 both ratios keep their initial [0]. *)
Lemma aggregate_guard_false cfg args r0 rest :
  (sequence_count r0 >? 0) && (M cfg >? 0) = false ->
  aggregate cfg args (r0 :: rest) = ([], Cont (report_of args r0 (PInt 0) (PInt 0))).
Proof.
  intros G. unfold aggregate. rewrite G.
  unfold report_of, truncation_label. destruct (interarrival args); reflexivity.
Qed.

(** Inside the guard both ratios are percentages over the same
    denominator, and the only exception is a failed conversion. *)
Lemma aggregate_guard_true cfg args r0 rest :
  sequence_count r0 > 0 -> M cfg > 0 ->
  aggregate cfg args (r0 :: rest) =
  match percent_ratio (rest_token_count r0) (sequence_count r0) (M cfg),
        percent_ratio (truncation_count r0) (sequence_count r0) (M cfg) with
  | Some a, Some b => ([], Cont (report_of args r0 (PFloat a) (PFloat b)))
  | _, _ => ([], Halt (Raised OverflowError))
  end.
Proof.
  intros Hs Hm.
  assert (G : (sequence_count r0 >? 0) && (M cfg >? 0) = true).
  { apply andb_true_intro. split; apply Z.gtb_lt; lia. }
  assert (Hd : (sequence_count r0 * M cfg =? 0) = false).
  { apply Z.eqb_neq. nia. }
  unfold aggregate, percent_ratio, py_float, truediv_float_int.
  rewrite G, Hd.
  destruct (PyFloat.float_of_int (rest_token_count r0)) as [x |];
    [| reflexivity].
  destruct (PyFloat.float_of_int (sequence_count r0 * M cfg)) as [d |];
    [| now destruct (PyFloat.float_of_int (truncation_count r0))].
  destruct (PyFloat.float_of_int (truncation_count r0)) as [y |];
    [| reflexivity].
  unfold report_of, truncation_label. destruct (interarrival args); reflexivity.
Qed.

(** Case analysis on the guard of line 70, with the two comparisons as
    hypotheses when it holds. *)
Ltac guard_cases cfg r0 G :=
  destruct ((sequence_count r0 >? 0) && (M cfg >? 0)) eqn:G;
  [ let G1 := fresh "Gs" in
    let G2 := fresh "Gm" in
    apply andb_prop in G as [G1 G2]; apply Z.gtb_lt in G1, G2
  | ].

(** Case analysis on the two percentages once the guard holds. *)
Ltac ratio_cases r0 a b :=
  destruct (percent_ratio (rest_token_count r0) _ _) as [a |];
  [ destruct (percent_ratio (truncation_count r0) _ _) as [b |] | ].

(** Aggregation of a non-empty result list prints nothing. *)
Lemma aggregate_silent cfg args r0 rest :
  fst (aggregate cfg args (r0 :: rest)) = [].
Proof.
  guard_cases cfg r0 G.
  - rewrite aggregate_guard_true by lia. ratio_cases r0 a b; reflexivity.
  - now rewrite aggregate_guard_false.
Qed.

(** Aggregation only looks at the first tuple of the result list. *)
Lemma aggregate_first cfg args r0 rest rest' :
  aggregate cfg args (r0 :: rest) = aggregate cfg args (r0 :: rest').
Proof. reflexivity. Qed.

(** No run of the aggregation divides by zero. *)
Lemma aggregate_no_zero_division cfg args results t :
  aggregate cfg args results <> (t, Halt (Raised ZeroDivisionError)).
Proof.
  destruct results as [| r0 rest]; [discriminate |].
  guard_cases cfg r0 G.
  - rewrite aggregate_guard_true by lia. ratio_cases r0 a b; discriminate.
  - rewrite aggregate_guard_false by assumption. discriminate.
Qed.

(** The run of [main] when discovery finds nothing. *)
Lemma main_no_input cfg w args :
  input_files w args = [] ->
  main cfg w args
  = (map Print (banner cfg args) ++ [Print (no_input_diagnostic args)],
     Returned None).
Proof.
  intros H. unfold main, main_body.
  rewrite print_all_events, H. reflexivity.
Qed.

(** The run of [main] once discovery found a file. *)
Lemma main_dispatch cfg w args :
  input_files w args <> [] ->
  main cfg w args =
  match aggregate cfg args (dispatched cfg w args) with
  | (t, Cont r) =>
      (dispatch_prefix cfg w args ++ t ++ map Print (report_lines cfg r),
       Returned (Some r))
  | (t, Halt o) => (dispatch_prefix cfg w args ++ t, o)
  end.
Proof.
  intros H. unfold main, main_body, dispatch_prefix, dispatched.
  rewrite print_all_events.
  destruct (input_files w args) as [| f fs] eqn:E; [congruence |].
  unfold bind at 1. unfold bind at 1. unfold print at 1.
  unfold bind at 1. unfold starmap at 1.
  destruct (aggregate cfg args _) as [t [r | o]]; unfold bind.
  - rewrite print_all_events. unfold ret, run, found_line.
    rewrite app_nil_r. cbn [app]. rewrite <- !app_assoc. reflexivity.
  - unfold run, found_line. cbn [app]. rewrite <- !app_assoc. reflexivity.
Qed.

Lemma printed_app t t' : printed (t ++ t') = printed t ++ printed t'.
Proof.
  induction t as [| [l | n f js] t IH]; simpl; [reflexivity | | exact IH].
  now rewrite IH.
Qed.

Lemma printed_prints ls : printed (map Print ls) = ls.
Proof. induction ls as [| l ls IH]; simpl; [reflexivity | now rewrite IH]. Qed.

Lemma jobs_dispatched_app t t' :
  jobs_dispatched (t ++ t') = jobs_dispatched t ++ jobs_dispatched t'.
Proof.
  induction t as [| [l | n f js] t IH]; simpl; [reflexivity | exact IH |].
  now rewrite IH, app_assoc.
Qed.

Lemma jobs_dispatched_prints ls : jobs_dispatched (map Print ls) = [].
Proof. induction ls as [| l ls IH]; simpl; [reflexivity | exact IH]. Qed.

Lemma dispatches_app t t' : dispatches (t ++ t') = dispatches t ++ dispatches t'.
Proof. apply filter_app. Qed.

Lemma dispatches_prints ls : dispatches (map Print ls) = [].
Proof. induction ls as [| l ls IH]; simpl; [reflexivity | exact IH]. Qed.

(** Whatever the result list, aggregation only prints. *)
Lemma aggregate_prints cfg args results :
  exists ls, fst (aggregate cfg args results) = map Print ls.
Proof.
  destruct results as [| r0 rest].
  - now exists [empty_result_diagnostic].
  - exists []. apply aggregate_silent.
Qed.

(** After the call on the pool [main] only prints. *)
Lemma main_after_dispatch cfg w args :
  input_files w args <> [] ->
  exists ls, fst (main cfg w args) = dispatch_prefix cfg w args ++ map Print ls.
Proof.
  intros H. rewrite (main_dispatch _ _ _ H).
  destruct (aggregate_prints cfg args (dispatched cfg w args)) as [ls Hls].
  destruct (aggregate cfg args (dispatched cfg w args)) as [t [r | o]];
    simpl in Hls; subst t.
  - exists (ls ++ report_lines cfg r). simpl. now rewrite map_app.
  - now exists ls.
Qed.

(** A run that ends with a report went through discovery, dispatch and
    aggregation of the first tuple, and printed the report last. *)
Lemma main_reported_inv cfg w args t r :
  main cfg w args = (t, Returned (Some r)) ->
  input_files w args <> [] /\
  exists r0 rest rest_ratio trunc_ratio,
    dispatched cfg w args = r0 :: rest /\
    r = report_of args r0 rest_ratio trunc_ratio /\
    t = dispatch_prefix cfg w args ++ map Print (report_lines cfg r).
Proof.
  intros H.
  destruct (input_files w args) as [| f fs] eqn:E.
  - rewrite (main_no_input _ _ _ E) in H. discriminate.
  - assert (N : input_files w args <> []) by (rewrite E; discriminate).
    split; [discriminate |].
    rewrite (main_dispatch _ _ _ N) in H.
    destruct (dispatched cfg w args) as [| r0 rest] eqn:D.
    + rewrite aggregate_nil in H. discriminate.
    + exists r0, rest.
      guard_cases cfg r0 G.
      * rewrite aggregate_guard_true in H by lia.
        ratio_cases r0 a b; try discriminate.
        exists (PFloat a), (PFloat b).
        injection H as <- <-. repeat split.
      * rewrite aggregate_guard_false in H by assumption.
        exists (PInt 0), (PInt 0).
        injection H as <- <-. repeat split.
Qed.





Lemma percent_ratio_overflow count seq_count unit_length :
  PyFloat.float_overflow_bound <= Z.abs count \/
  PyFloat.float_overflow_bound <= Z.abs (seq_count * unit_length) ->
  percent_ratio count seq_count unit_length = None.
Proof.
  unfold percent_ratio, PyFloat.float_of_int.
  intros [H | H]; apply Z.ltb_ge in H; rewrite H; [reflexivity |].
  now destruct (Z.abs count <? PyFloat.float_overflow_bound).
Qed.


(** A run reads the world through the file list and the first tuple of
    the pool's answer only. *)
Lemma main_ext_head cfg w w' args :
  input_files w args = input_files w' args ->
  hd_error (dispatched cfg w args) = hd_error (dispatched cfg w' args) ->
  main cfg w args = main cfg w' args.
Proof.
  intros E Hd.
  assert (S : starmap_args w args = starmap_args w' args)
    by (unfold starmap_args; now rewrite E).
  assert (C : input_files w args = [] \/ input_files w args <> [])
    by (destruct (input_files w args); [left | right]; congruence).
  destruct C as [F | N].
  - rewrite (main_no_input _ w), (main_no_input _ w'); congruence.
  - assert (N' : input_files w' args <> []) by congruence.
    rewrite (main_dispatch _ w _ N), (main_dispatch _ w' _ N').
    unfold dispatch_prefix. rewrite <- S, <- E.
    destruct (dispatched cfg w args) as [| r0 rest];
      destruct (dispatched cfg w' args) as [| r0' rest']; try discriminate.
    + reflexivity.
    + injection Hd as <-. now rewrite (aggregate_first cfg args r0 rest rest').
Qed.

Lemma main_ext cfg w w' args :
  input_files w args = input_files w' args ->
  (forall n f jobs, pool_starmap w n f jobs = pool_starmap w' n f jobs) ->
  main cfg w args = main cfg w' args.
Proof.
  intros E Q. apply main_ext_head; [exact E |].
  unfold dispatched, starmap_args. now rewrite E, Q.
Qed.

(* ================================================================== *)
(** ** The rounding of doubles *)
(* ================================================================== *)




















































(* ================================================================== *)
(** ** The properties of the specification *)
(* ================================================================== *)







(** C2, counterexample: a directory whose only file with the shard
    suffix is hidden holds a file matching the naming suffix, yet [glob]
    skips it and no JobDescriptor is produced. *)
Lemma C2_hidden_shard_counterexample :
  In Sample.hidden_shard
     (listdir (Sample.world [Sample.hidden_shard] [Sample.stats])
              (source_directory Sample.args)) /\
  endswith shard_suffix Sample.hidden_shard = true /\
  jobs_dispatched
    (fst (main Sample.cfg (Sample.world [Sample.hidden_shard] [Sample.stats])
               Sample.args)) = [] /\
  main Sample.cfg (Sample.world [Sample.hidden_shard] [Sample.stats]) Sample.args
  = (map Print (banner Sample.cfg Sample.args)
     ++ [Print (no_input_diagnostic Sample.args)], Returned None).
Proof. repeat split; vm_compute; auto. Qed.

(** C2, as it holds of the code: when the directory argument holds none
    of the characters [glob] expands and the directory has at least one
    entry that discovery keeps (its name ends with the shard suffix and
    does not start with a dot), [main] hands the pool exactly one job list, holding exactly one
    JobDescriptor: its input_files is the whole sorted list of discovered
    files, as many as the directory has such entries, its output
    destination is [tokenized-events-all.txt] joined to the source
    directory, its augmentation_factor is the [--augment] argument and its
    slot_index is 0; the routine is [tokenize] in arrival-time mode.  In
    particular three such entries and augmentation factor 2 give one
    JobDescriptor with augmentation_factor 2 and three input files. *)
Theorem C2_single_job cfg w args :
  has_magic (datadir args) = false ->
  (exists name, In name (listdir w (source_directory args)) /\
                is_shard name = true) ->
  dispatches (fst (main cfg w args))
  = [Starmap (PREPROC_WORKERS cfg) (func args)
       [ {| Job.input_files := sorted (discovered w args);
            Job.output_destination :=
              PyPath.join (datadir args) "tokenized-events-all.txt";
            Job.augmentation_factor := augment args;
            Job.slot_index := 0 |} ]] /\
  List.length (sorted (discovered w args))
  = List.length (filter is_shard (listdir w (source_directory args))) /\
  (interarrival args = false -> func args = tokenize) /\
  (List.length (filter is_shard (listdir w (source_directory args))) = 3%nat ->
   augment args = 2 ->
   exists jd, jobs_dispatched (fst (main cfg w args)) = [jd] /\
              Job.augmentation_factor jd = 2 /\
              List.length (Job.input_files jd) = 3%nat).
Proof.
  intros _ (name & Hin & Hs).
  assert (N : input_files w args <> []).
  { rewrite input_files_nil_iff. intros E.
    assert (In name (filter is_shard (listdir w (source_directory args))))
      as X by (apply filter_In; auto).
    rewrite E in X. exact X. }
  destruct (main_after_dispatch cfg _ _ N) as [ls Hls].
  assert (L : List.length (sorted (discovered w args))
              = List.length (filter is_shard (listdir w (source_directory args))))
    by (rewrite sorted_length; apply discovered_length).
  split; [| split; [exact L | split]].
  - rewrite Hls. unfold dispatch_prefix.
    rewrite !dispatches_app, !dispatches_prints.
    unfold starmap_args, output_file. rewrite input_files_discovered.
    reflexivity.
  - unfold func. now intros ->.
  - intros L3 Ha. eexists. split; [| split].
    + rewrite Hls. unfold dispatch_prefix.
      rewrite !jobs_dispatched_app, !jobs_dispatched_prints.
      unfold starmap_args. reflexivity.
    + exact Ha.
    + simpl. rewrite input_files_discovered, L. exact L3.
Qed.

Lemma C2_single_job_witness :
  has_magic (datadir Sample.args) = false /\
  (exists name,
     In name (listdir (Sample.faithful_world Sample.entries (fun _ _ => Sample.stats))
                      (source_directory Sample.args)) /\
     is_shard name = true) /\
  dispatches
    (fst (main Sample.cfg
               (Sample.faithful_world Sample.entries (fun _ _ => Sample.stats))
               Sample.args))
  = [Starmap 16 tokenize
       [ {| Job.input_files := Sample.shards;
            Job.output_destination := "data/tokenized-events-all.txt";
            Job.augmentation_factor := 2;
            Job.slot_index := 0 |} ]].
Proof.
  assert (H : exists name,
     In name (listdir (Sample.faithful_world Sample.entries (fun _ _ => Sample.stats))
                      (source_directory Sample.args)) /\
     is_shard name = true).
  { exists "a.mid.compound.txt"%string. split; [| reflexivity].
    simpl. auto 6. }
  split; [reflexivity |]. split; [exact H |].
  exact (proj1 (C2_single_job Sample.cfg
                  (Sample.faithful_world Sample.entries (fun _ _ => Sample.stats))
                  Sample.args eq_refl H)).
Defined.







(** C5, counterexample: the sample directory holds a hidden file whose
    name ends with the shard suffix, and it is not in [input_files]. *)
Lemma C5_hidden_shard_counterexample :
  In Sample.hidden_shard
     (listdir (Sample.world Sample.entries []) (source_directory Sample.args)) /\
  endswith shard_suffix Sample.hidden_shard = true /\
  input_files (Sample.world Sample.entries []) Sample.args = Sample.shards /\
  ~ In (shard_path Sample.args Sample.hidden_shard)
       (input_files (Sample.world Sample.entries []) Sample.args).
Proof.
  split; [simpl; auto 6 |]. split; [reflexivity |]. split; [reflexivity |].
  vm_compute. intros [H | [H | [H | []]]]; discriminate.
Qed.

(** C5, as it holds of the code: when the directory argument holds none
    of the characters [glob] expands, [input_files] is the
    lexicographically sorted list of the paths of the entries of the
    source directory (files or directories, [glob] does not tell them
    apart) whose names end with the shard suffix and do not start with a
    dot: it is sorted, it holds exactly these paths, it is the only sorted
    arrangement of them, and it does not depend on the order in which the
    directory is listed. *)
Theorem C5_input_files_sorted w args :
  has_magic (datadir args) = false ->
  (forall name,
     is_shard name = true <->
     (exists stem, name = (stem ++ ".mid.compound.txt")%string) /\
     PyPath.ishidden name = false) /\
  input_files w args = sorted (discovered w args) /\
  StronglySorted str_le (input_files w args) /\
  Permutation (discovered w args) (input_files w args) /\
  (forall s, StronglySorted str_le s -> Permutation (discovered w args) s ->
             input_files w args = s) /\
  (forall w', (forall d, Permutation (listdir w d) (listdir w' d)) ->
              input_files w' args = input_files w args).
Proof.
  intros _.
  split; [| split; [| split; [| split; [| split]]]].
  - intros name. unfold is_shard.
    rewrite andb_true_iff, negb_true_iff, endswith_app. tauto.
  - apply input_files_discovered.
  - rewrite input_files_discovered. apply sorted_StronglySorted.
  - rewrite input_files_discovered. apply sorted_Permutation.
  - intros s S P. rewrite input_files_discovered.
    now apply sorted_characterised.
  - intros w' P. symmetry. now apply input_files_listing_order.
Qed.

Lemma C5_input_files_sorted_witness :
  has_magic (datadir Sample.args) = false /\
  input_files (Sample.world Sample.entries []) Sample.args
  = sorted (discovered (Sample.world Sample.entries []) Sample.args) /\
  input_files (Sample.world Sample.entries []) Sample.args = Sample.shards.
Proof.
  split; [reflexivity |]. split; [| reflexivity].
  exact (proj1 (proj2 (C5_input_files_sorted
                         (Sample.world Sample.entries []) Sample.args eq_refl))).
Defined.

(** C6: when discovery yields no file (the list of line 28 is empty),
    [main] prints the banner and the
    "No ... files found" diagnostic, hands nothing to the pool (so no
    tokenizer runs and nothing is written), and returns normally. *)
Theorem C6_no_input_files cfg w args :
  input_files w args = [] ->
  main cfg w args
  = (map Print (banner cfg args) ++ [Print (no_input_diagnostic args)],
     Returned None) /\
  dispatches (fst (main cfg w args)) = [] /\
  jobs_dispatched (fst (main cfg w args)) = [] /\
  last (printed (fst (main cfg w args))) [] = no_input_diagnostic args.
Proof.
  intros E.
  rewrite (main_no_input _ _ _ E). cbn [fst].
  rewrite dispatches_app, jobs_dispatched_app, printed_app.
  rewrite dispatches_prints, jobs_dispatched_prints, printed_prints.
  split; [reflexivity |]. split; [reflexivity |]. split; [reflexivity |].
  apply last_last.
Qed.

Lemma C6_no_input_files_witness :
  input_files Sample.empty_world Sample.args = [] /\
  main Sample.cfg Sample.empty_world Sample.args
  = (map Print (banner Sample.cfg Sample.args)
     ++ [Print (no_input_diagnostic Sample.args)], Returned None).
Proof.
  split; [reflexivity |].
  exact (proj1 (C6_no_input_files Sample.cfg Sample.empty_world Sample.args
                  eq_refl)).
Defined.

(** C7: when files were found and the pool gives back an empty result
    list, [main] prints the "did not return any results" diagnostic right
    after the dispatch, prints no line of the report, and returns
    normally without a report. *)
Theorem C7_empty_result cfg w args :
  input_files w args <> [] ->
  dispatched cfg w args = [] ->
  main cfg w args
  = (dispatch_prefix cfg w args ++ [Print empty_result_diagnostic],
     Returned None) /\
  printed (fst (main cfg w args))
  = banner cfg args
    ++ [found_line (List.length (input_files w args)); empty_result_diagnostic] /\
  (forall r l, In l (report_lines cfg r) ->
               ~ In l (printed (fst (main cfg w args)))).
Proof.
  intros N D.
  rewrite (main_dispatch _ _ _ N), D, aggregate_nil. cbn [fst].
  assert (P : printed (dispatch_prefix cfg w args ++ [Print empty_result_diagnostic])
              = banner cfg args
                ++ [found_line (List.length (input_files w args));
                    empty_result_diagnostic]).
  { unfold dispatch_prefix.
    rewrite !printed_app, printed_prints, <- app_assoc. reflexivity. }
  split; [reflexivity |]. split; [exact P |].
  intros r l Hl. rewrite P. intros Hp.
  unfold banner, found_line, empty_result_diagnostic in Hp.
  unfold report_lines in Hl.
  simpl in Hl, Hp.
  repeat (destruct Hl as [Hl | Hl];
          [subst l; intuition discriminate |]).
  exact Hl.
Qed.

Lemma C7_empty_result_witness :
  input_files (Sample.world Sample.entries []) Sample.args <> [] /\
  dispatched Sample.cfg (Sample.world Sample.entries []) Sample.args = [] /\
  main Sample.cfg (Sample.world Sample.entries []) Sample.args
  = (dispatch_prefix Sample.cfg (Sample.world Sample.entries []) Sample.args
     ++ [Print empty_result_diagnostic], Returned None).
Proof.
  assert (N : input_files (Sample.world Sample.entries []) Sample.args <> [])
    by (vm_compute; discriminate).
  split; [exact N |]. split; [reflexivity |].
  exact (proj1 (C7_empty_result Sample.cfg (Sample.world Sample.entries [])
                  Sample.args N eq_refl)).
Defined.

(** C8: in every run that ends with a report, the truncation label of
    the report is "interarrival" exactly when the interarrival flag is
    set and "duration" otherwise, whatever the statistics tuple holds and
    whichever branch of the guard computed the ratios; the "Truncated"
    line is printed with that label. *)
Theorem C8_truncation_label cfg w args t r :
  main cfg w args = (t, Returned (Some r)) ->
  (Report.trunc_type r = "interarrival"%string <-> interarrival args = true) /\
  (Report.trunc_type r = "duration"%string <-> interarrival args = false) /\
  Report.trunc_type r = truncation_label (interarrival args) /\
  In (truncated_line (Report.truncations r)
                     (truncation_label (interarrival args))
                     (Report.trunc_ratio r))
     (printed t).
Proof.
  intros H.
  destruct (main_reported_inv _ _ _ _ _ H)
    as (_ & r0 & rest & a & b & _ & -> & ->).
  split; [| split; [| split]].
  - simpl. destruct (interarrival args); simpl; split;
      intros; try reflexivity; discriminate.
  - simpl. destruct (interarrival args); simpl; split;
      intros; try reflexivity; discriminate.
  - reflexivity.
  - rewrite printed_app, printed_prints. apply in_or_app. right.
    unfold report_lines, truncated_line. simpl. auto 12.
Qed.

Lemma C8_truncation_label_witness :
  main Sample.cfg (Sample.world Sample.entries [Sample.no_sequences]) Sample.args_ia
  = (dispatch_prefix Sample.cfg (Sample.world Sample.entries [Sample.no_sequences])
                     Sample.args_ia
     ++ map Print (report_lines Sample.cfg
                     (report_of Sample.args_ia Sample.no_sequences (PInt 0) (PInt 0))),
     Returned (Some (report_of Sample.args_ia Sample.no_sequences (PInt 0) (PInt 0)))) /\
  Report.trunc_type (report_of Sample.args_ia Sample.no_sequences (PInt 0) (PInt 0))
  = "interarrival"%string.
Proof.
  assert (H : main Sample.cfg (Sample.world Sample.entries [Sample.no_sequences])
                   Sample.args_ia
    = (dispatch_prefix Sample.cfg (Sample.world Sample.entries [Sample.no_sequences])
                       Sample.args_ia
       ++ map Print (report_lines Sample.cfg
                       (report_of Sample.args_ia Sample.no_sequences (PInt 0) (PInt 0))),
       Returned (Some (report_of Sample.args_ia Sample.no_sequences (PInt 0) (PInt 0)))))
    by reflexivity.
  split; [exact H |].
  exact (proj1 (proj2 (proj2 (C8_truncation_label _ _ _ _ _ H)))).
Defined.

(** C9: two runs with the same arguments and configuration, on worlds
    whose directories hold the same entries (in whatever order each run
    enumerates them) and whose pool answers alike, print the same lines,
    hand the pool the same job and end with the same report. *)
Theorem C9_deterministic cfg w w' args :
  (forall d, Permutation (listdir w d) (listdir w' d)) ->
  (forall n f jobs, pool_starmap w n f jobs = pool_starmap w' n f jobs) ->
  main cfg w args = main cfg w' args.
Proof.
  intros P Q.
  pose proof (input_files_listing_order _ _ args P) as E.
  assert (S : starmap_args w args = starmap_args w' args)
    by (unfold starmap_args; now rewrite E).
  destruct (input_files w args) as [| f fs] eqn:F.
  - rewrite (main_no_input _ w), (main_no_input _ w'); auto.
  - assert (N : input_files w args <> []) by (rewrite F; discriminate).
    assert (N' : input_files w' args <> []) by (rewrite <- E; discriminate).
    rewrite (main_dispatch _ w _ N), (main_dispatch _ w' _ N').
    unfold dispatched, dispatch_prefix. rewrite <- S, <- Q, <- E, F.
    reflexivity.
Qed.

Lemma C9_deterministic_witness :
  (forall d, Permutation
               (listdir (Sample.faithful_world Sample.entries (fun _ _ => Sample.stats)) d)
               (listdir (Sample.faithful_world (rev Sample.entries)
                                               (fun _ _ => Sample.stats)) d)) /\
  main Sample.cfg (Sample.faithful_world Sample.entries (fun _ _ => Sample.stats))
       Sample.args
  = main Sample.cfg (Sample.faithful_world (rev Sample.entries)
                                           (fun _ _ => Sample.stats))
         Sample.args.
Proof.
  assert (P : forall d, Permutation
               (listdir (Sample.faithful_world Sample.entries (fun _ _ => Sample.stats)) d)
               (listdir (Sample.faithful_world (rev Sample.entries)
                                               (fun _ _ => Sample.stats)) d)).
  { intros d. unfold Sample.faithful_world, Sample.ls. cbn [listdir].
    destruct (String.eqb d "data"); [apply Permutation_rev | constructor]. }
  split; [exact P |].
  exact (C9_deterministic Sample.cfg _ _ Sample.args P (fun _ _ _ => eq_refl)).
Defined.

(** C10: in every run that ends with a report, the "Discarded N event
    sequences" line is printed, once, with N = too_short + too_long of the
    unpacked tuple and nothing else; the too-many-instruments count is
    printed as a sub-item and the discarded-sequence count on a line of
    its own, and neither is part of N. *)
Theorem C10_discarded_total cfg w args t r :
  main cfg w args = (t, Returned (Some r)) ->
  exists r0 rest,
    dispatched cfg w args = r0 :: rest /\
    In (discarded_line (too_short_count r0 + too_long_count r0)) (printed t) /\
    (forall n, In (discarded_line n) (printed t) ->
               n = too_short_count r0 + too_long_count r0) /\
    In (too_many_instruments_line (too_many_instruments_count r0)) (printed t) /\
    In (discarded_sequences_line (discarded_sequence_count r0)) (printed t).
Proof.
  intros H.
  destruct (main_reported_inv _ _ _ _ _ H)
    as (_ & r0 & rest & a & b & D & -> & ->).
  exists r0, rest. split; [exact D |].
  assert (P : printed (dispatch_prefix cfg w args
                       ++ map Print (report_lines cfg (report_of args r0 a b)))
              = banner cfg args
                ++ found_line (List.length (input_files w args))
                :: report_lines cfg (report_of args r0 a b)).
  { unfold dispatch_prefix.
    rewrite !printed_app, !printed_prints, <- app_assoc. reflexivity. }
  rewrite P. split; [| split; [| split]].
  - apply in_or_app. right. right.
    unfold report_lines, discarded_line. simpl. auto 8.
  - intros n Hn. apply in_app_or in Hn.
    unfold banner, found_line, report_lines, discarded_line in Hn.
    simpl in Hn.
    repeat (destruct Hn as [Hn | Hn]; try discriminate; try contradiction).
    now injection Hn as <-.
  - apply in_or_app. right. right.
    unfold report_lines, too_many_instruments_line. simpl. auto 12.
  - apply in_or_app. right. right.
    unfold report_lines, discarded_sequences_line. simpl. auto 12.
Qed.

Lemma C10_discarded_total_witness :
  main Sample.cfg (Sample.world Sample.entries [Sample.stats]) Sample.args
  = (dispatch_prefix Sample.cfg (Sample.world Sample.entries [Sample.stats])
                     Sample.args
     ++ map Print (report_lines Sample.cfg
                     (report_of Sample.args Sample.stats
                                (PFloat 2.5%float) (PFloat 0.5%float))),
     Returned (Some (report_of Sample.args Sample.stats
                               (PFloat 2.5%float) (PFloat 0.5%float)))) /\
  exists r0 rest,
    dispatched Sample.cfg (Sample.world Sample.entries [Sample.stats]) Sample.args
    = r0 :: rest /\
    In (discarded_line (too_short_count r0 + too_long_count r0))
       (printed (dispatch_prefix Sample.cfg
                   (Sample.world Sample.entries [Sample.stats]) Sample.args
                 ++ map Print (report_lines Sample.cfg
                                 (report_of Sample.args Sample.stats
                                            (PFloat 2.5%float) (PFloat 0.5%float))))).
Proof.
  assert (H : main Sample.cfg (Sample.world Sample.entries [Sample.stats]) Sample.args
    = (dispatch_prefix Sample.cfg (Sample.world Sample.entries [Sample.stats])
                       Sample.args
       ++ map Print (report_lines Sample.cfg
                       (report_of Sample.args Sample.stats
                                  (PFloat 2.5%float) (PFloat 0.5%float))),
       Returned (Some (report_of Sample.args Sample.stats
                                 (PFloat 2.5%float) (PFloat 0.5%float)))))
    by (vm_compute; reflexivity).
  split; [exact H |].
  destruct (C10_discarded_total _ _ _ _ _ H) as (r0 & rest & D & I & _).
  exists r0, rest. split; [exact D | exact I].
Defined.

(* ================================================================== *)
(** ** Further properties of [main] *)
(* ================================================================== *)

(** *** What a run depends on *)

(** Discovery only looks at the source directory. *)
Lemma input_files_source_directory w w' args :
  Permutation (filter is_shard (listdir w (source_directory args)))
              (filter is_shard (listdir w' (source_directory args))) ->
  input_files w args = input_files w' args.
Proof.
  intros P. rewrite !input_files_discovered.
  apply sorted_perm_invariant. unfold discovered.
  now apply Permutation_map.
Qed.

(** *** The output file and the input files *)

Lemma string_length_append a b :
  String.length (a ++ b) = (String.length a + String.length b)%nat.
Proof. induction a as [| c a IH]; simpl; [reflexivity | now rewrite IH]. Qed.

Lemma append_assoc a b c : ((a ++ b) ++ c = a ++ (b ++ c))%string.
Proof. induction a as [| d a IH]; simpl; [reflexivity | now rewrite IH]. Qed.

Lemma endswith_append suffix a b :
  endswith suffix b = true -> endswith suffix (a ++ b) = true.
Proof.
  intros H. induction a as [| c a IH]; [exact H |].
  simpl String.append. rewrite endswith_cons, IH. apply orb_true_r.
Qed.

(** In front of a text at least as long as the suffix, nothing changes
    whether the whole ends with the suffix. *)
Lemma endswith_long_tail suffix a b :
  (String.length suffix <= String.length b)%nat ->
  endswith suffix (a ++ b) = endswith suffix b.
Proof.
  intros L. induction a as [| c a IH]; [reflexivity |].
  simpl String.append. rewrite endswith_cons, IH.
  destruct (String.eqb_spec (String c (a ++ b)) suffix) as [E | _];
    [| reflexivity].
  apply (f_equal String.length) in E. simpl in E.
  rewrite string_length_append in E. lia.
Qed.

Lemma join_endswith suffix d name :
  endswith suffix name = true -> endswith suffix (PyPath.join d name) = true.
Proof.
  intros H. unfold PyPath.join.
  destruct (PyPath.startswith_sep name); [exact H |].
  destruct (PyPath.is_empty d || PyPath.endswith_sep d).
  - now apply endswith_append.
  - rewrite append_snoc. now apply endswith_append.
Qed.

Lemma join_long_tail suffix d name :
  PyPath.startswith_sep name = false ->
  (String.length suffix <= String.length name)%nat ->
  endswith suffix (PyPath.join d name) = endswith suffix name.
Proof.
  intros S L. unfold PyPath.join. rewrite S.
  destruct (PyPath.is_empty d || PyPath.endswith_sep d).
  - now apply endswith_long_tail.
  - rewrite append_snoc. now apply endswith_long_tail.
Qed.

(** The elements of the file list are the paths of the kept entries. *)
Lemma input_files_In w args p :
  In p (input_files w args) <->
  exists name, In name (listdir w (source_directory args)) /\
               is_shard name = true /\ p = shard_path args name.
Proof.
  rewrite input_files_discovered. split.
  - intros H.
    apply (Permutation_in _ (Permutation_sym (sorted_Permutation _))) in H.
    unfold discovered in H. apply in_map_iff in H as (name & <- & H).
    apply filter_In in H as [H1 H2]. eauto.
  - intros (name & H1 & H2 & ->).
    apply (Permutation_in _ (sorted_Permutation _)).
    unfold discovered. apply in_map. apply filter_In. auto.
Qed.

Lemma shard_path_endswith args name :
  is_shard name = true -> endswith shard_suffix (shard_path args name) = true.
Proof.
  intros H. unfold is_shard in H. apply andb_prop in H as [_ H].
  unfold shard_path.
  destruct (PyPath.is_empty _); [exact H | now apply join_endswith].
Qed.

Lemma output_file_not_shard_path args :
  endswith shard_suffix (output_file args) = false.
Proof.
  unfold output_file. rewrite join_long_tail; [reflexivity | reflexivity |].
  simpl. lia.
Qed.

(** *** Joining and splitting *)

Lemma no_sep_startswith name :
  PyPath.has_sep name = false -> PyPath.startswith_sep name = false.
Proof.
  destruct name as [| c name]; [reflexivity |].
  simpl. intros H. now apply orb_false_elim in H as [H _].
Qed.

Lemma join_dir_prefix d b :
  PyPath.startswith_sep b = false -> PyPath.join d b = (dir_prefix d ++ b)%string.
Proof.
  intros S. unfold PyPath.join, dir_prefix. rewrite S.
  destruct (PyPath.is_empty d || PyPath.endswith_sep d); [reflexivity |].
  apply append_snoc.
Qed.

Lemma dir_prefix_terminated d :
  PyPath.is_empty (dir_prefix d) || PyPath.endswith_sep (dir_prefix d) = true.
Proof.
  unfold dir_prefix.
  destruct (PyPath.is_empty d || PyPath.endswith_sep d) eqn:E; [exact E |].
  rewrite endswith_sep_snoc. apply orb_true_r.
Qed.

(** After a directory part that is empty or ends with a separator, a
    component without separator is cut off whole. *)
Lemma cut_sep_terminated a b :
  PyPath.is_empty a || PyPath.endswith_sep a = true ->
  PyPath.has_sep b = false ->
  PyPath.cut_after_last_sep (a ++ b) = (a, b).
Proof.
  intros Ha Hb. induction a as [| c a IH].
  - now apply cut_tail_no_sep.
  - simpl String.append. rewrite cut_cons.
    destruct a as [| c' a].
    + simpl in Ha. simpl String.append.
      rewrite Ha, (cut_tail_no_sep _ Hb). reflexivity.
    + assert (Ha' : PyPath.endswith_sep (String c' a) = true) by exact Ha.
      rewrite has_sep_app, (endswith_sep_has_sep _ Ha'), orb_true_r.
      rewrite IH by (rewrite Ha'; apply orb_true_r). reflexivity.
Qed.

(** [split] undoes [join] on a last component without separator, up to
    the trailing separators of the directory. *)
Lemma split_join d b :
  PyPath.has_sep b = false ->
  PyPath.split (PyPath.join d b) = (norm_head (dir_prefix d), b).
Proof.
  intros Hb. rewrite join_dir_prefix by now apply no_sep_startswith.
  unfold PyPath.split.
  rewrite (cut_sep_terminated _ _ (dir_prefix_terminated d) Hb).
  reflexivity.
Qed.

Lemma rstrip_snoc_sep x :
  PyPath.rstrip_sep (x ++ String PyPath.sep "") = PyPath.rstrip_sep x.
Proof.
  induction x as [| c x IH]; [reflexivity |].
  simpl String.append. simpl PyPath.rstrip_sep. now rewrite IH.
Qed.

Lemma rstrip_fixed x :
  PyPath.endswith_sep x = false -> PyPath.rstrip_sep x = x.
Proof.
  induction x as [| c x IH]; [reflexivity |].
  destruct x as [| c' x]; intros H.
  - simpl in H. simpl. now rewrite H.
  - assert (H' : PyPath.endswith_sep (String c' x) = false) by exact H.
    change (PyPath.rstrip_sep (String c (String c' x)))
      with (let r := PyPath.rstrip_sep (String c' x) in
            if PyPath.is_sep c && PyPath.is_empty r
            then EmptyString else String c r).
    rewrite (IH H'). simpl. now rewrite andb_false_r.
Qed.

Lemma is_empty_rstrip x :
  PyPath.is_empty (PyPath.rstrip_sep x) = PyPath.all_sep x.
Proof.
  induction x as [| c x IH]; [reflexivity |].
  simpl. rewrite <- IH.
  destruct (PyPath.is_sep c), (PyPath.is_empty (PyPath.rstrip_sep x));
    reflexivity.
Qed.

Lemma endswith_sep_rstrip x :
  PyPath.endswith_sep (PyPath.rstrip_sep x) = false.
Proof.
  induction x as [| c x IH]; [reflexivity |].
  simpl PyPath.rstrip_sep.
  destruct (PyPath.is_sep c) eqn:C, (PyPath.rstrip_sep x) as [| c' r] eqn:R;
    simpl; try reflexivity; try exact C; exact IH.
Qed.

Lemma no_trailing_sep_not_all_sep y :
  PyPath.is_empty y = false -> PyPath.endswith_sep y = false ->
  PyPath.all_sep y = false.
Proof.
  induction y as [| c y IH]; [discriminate |].
  intros _ H. destruct y as [| c' y].
  - simpl in H. simpl. now rewrite H.
  - change (PyPath.all_sep (String c (String c' y)))
      with (PyPath.is_sep c && PyPath.all_sep (String c' y)).
    rewrite IH; [apply andb_false_r | reflexivity | exact H].
Qed.

Lemma all_sep_endswith_sep y :
  PyPath.is_empty y = false -> PyPath.all_sep y = true ->
  PyPath.endswith_sep y = true.
Proof.
  induction y as [| c y IH]; [discriminate |].
  intros _ H. simpl in H. apply andb_prop in H as [Hc Hy].
  destruct y as [| c' y]; [exact Hc |].
  apply IH; [reflexivity | exact Hy].
Qed.

Lemma all_sep_app a b :
  PyPath.all_sep (a ++ b) = PyPath.all_sep a && PyPath.all_sep b.
Proof.
  induction a as [| c a IH]; [reflexivity |].
  simpl. now rewrite IH, andb_assoc.
Qed.

Lemma is_empty_app a b :
  PyPath.is_empty (a ++ b) = PyPath.is_empty a && PyPath.is_empty b.
Proof. now destruct a. Qed.

(** The directory name [split] gives is stable: joining a component to it
    and splitting again gives it back, unless it is empty. *)
Lemma norm_head_dir_prefix_idem d :
  PyPath.is_empty (norm_head (dir_prefix d)) = false ->
  norm_head (dir_prefix (norm_head (dir_prefix d))) = norm_head (dir_prefix d).
Proof.
  generalize (dir_prefix d). intros P.
  destruct (PyPath.is_empty P) eqn:EP.
  - assert (E : norm_head P = P) by (unfold norm_head; now rewrite EP).
    rewrite E. congruence.
  - destruct (PyPath.all_sep P) eqn:AP.
    + assert (E : norm_head P = P) by (unfold norm_head; now rewrite EP, AP).
      rewrite E. intros _.
      assert (F : dir_prefix P = P).
      { unfold dir_prefix.
        now rewrite (all_sep_endswith_sep _ EP AP), orb_true_r. }
      now rewrite F.
    + assert (E : norm_head P = PyPath.rstrip_sep P)
        by (unfold norm_head; now rewrite EP, AP).
      rewrite E. intros H.
      assert (E1 : PyPath.endswith_sep (PyPath.rstrip_sep P) = false)
        by apply endswith_sep_rstrip.
      assert (F : dir_prefix (PyPath.rstrip_sep P)
                  = (PyPath.rstrip_sep P ++ String PyPath.sep "")%string)
        by (unfold dir_prefix; now rewrite H, E1).
      rewrite F. unfold norm_head.
      rewrite is_empty_app, H, all_sep_app.
      rewrite (no_trailing_sep_not_all_sep _ H E1). cbn [andb negb].
      rewrite rstrip_snoc_sep. now apply rstrip_fixed.
Qed.

Lemma glob_dirname args :
  fst (PyPath.split (PyPath.join (datadir args) shard_pattern))
  = norm_head (dir_prefix (datadir args)).
Proof. now rewrite split_join. Qed.

Lemma output_file_split args :
  PyPath.split (output_file args)
  = (norm_head (dir_prefix (datadir args)), consolidated_name).
Proof. unfold output_file. now rewrite split_join. Qed.

Lemma is_empty_true s : PyPath.is_empty s = true -> s = ""%string.
Proof. now destruct s. Qed.

(** A discovered path splits back into the directory and the entry. *)
Lemma shard_path_split args name :
  PyPath.has_sep name = false ->
  PyPath.split (shard_path args name)
  = (norm_head (dir_prefix (datadir args)), name).
Proof.
  intros Hn. unfold shard_path. rewrite glob_dirname.
  destruct (PyPath.is_empty (norm_head (dir_prefix (datadir args)))) eqn:E.
  - rewrite (is_empty_true _ E).
    unfold PyPath.split. now rewrite (cut_tail_no_sep _ Hn).
  - rewrite split_join by exact Hn.
    now rewrite norm_head_dir_prefix_idem.
Qed.

Lemma source_directory_dirname args :
  source_directory args
  = if PyPath.is_empty (dirname (output_file args)) then "."%string
    else dirname (output_file args).
Proof.
  unfold source_directory, dirname.
  now rewrite glob_dirname, output_file_split.
Qed.

Lemma map_NoDup_on {A B} (f : A -> B) l :
  (forall x y, In x l -> In y l -> f x = f y -> x = y) ->
  NoDup l -> NoDup (map f l).
Proof.
  intros Inj N. induction N as [| a l Ha N IH]; simpl; constructor.
  - intros H. apply in_map_iff in H as (y & E & Hy).
    assert (y = a) by (apply Inj; simpl; auto). now subst.
  - apply IH. intros x y Hx Hy. apply Inj; simpl; auto.
Qed.

(** X1: a run is not disturbed by the output of an earlier one: when the
    source directory holds, besides what it held, the consolidated output
    file [tokenized-events-all.txt], discovery finds the same files and,
    the pool answering alike, the run is the same. *)
Theorem X1_rerun_ignores_output cfg w w' args :
  Permutation (listdir w' (source_directory args))
              (consolidated_name :: listdir w (source_directory args)) ->
  (forall n f jobs, pool_starmap w' n f jobs = pool_starmap w n f jobs) ->
  input_files w' args = input_files w args /\
  main cfg w' args = main cfg w args.
Proof.
  intros P Q.
  assert (E : input_files w' args = input_files w args).
  { apply input_files_source_directory.
    apply (filter_Permutation is_shard) in P. exact P. }
  split; [exact E | now apply main_ext].
Qed.

Lemma X1_rerun_ignores_output_witness :
  Permutation
    (listdir (Sample.faithful_world Sample2.entries_after_run
                                    (fun _ _ => Sample.stats))
             (source_directory Sample.args))
    (consolidated_name
     :: listdir (Sample.faithful_world Sample.entries (fun _ _ => Sample.stats))
                (source_directory Sample.args)) /\
  main Sample.cfg
       (Sample.faithful_world Sample2.entries_after_run (fun _ _ => Sample.stats))
       Sample.args
  = main Sample.cfg
         (Sample.faithful_world Sample.entries (fun _ _ => Sample.stats))
         Sample.args.
Proof.
  assert (P : Permutation
    (listdir (Sample.faithful_world Sample2.entries_after_run
                                    (fun _ _ => Sample.stats))
             (source_directory Sample.args))
    (consolidated_name
     :: listdir (Sample.faithful_world Sample.entries (fun _ _ => Sample.stats))
                (source_directory Sample.args))).
  { change (Permutation Sample2.entries_after_run
                        (consolidated_name :: Sample.entries)).
    unfold Sample2.entries_after_run, Sample.entries, consolidated_name.
    apply Permutation_sym.
    eapply Permutation_trans; [apply perm_swap |]. apply perm_skip.
    apply perm_swap. }
  split; [exact P |].
  exact (proj2 (X1_rerun_ignores_output Sample.cfg _ _ Sample.args P
                  (fun _ _ _ => eq_refl))).
Defined.

(** X2: every path handed to the tokenizer ends with the shard suffix
    [.mid.compound.txt], the path of the consolidated output file does
    not, and so the output file is never one of the input files. *)
Theorem X2_output_is_no_input w args :
  (forall p, In p (input_files w args) -> endswith shard_suffix p = true) /\
  endswith shard_suffix (output_file args) = false /\
  ~ In (output_file args) (input_files w args).
Proof.
  assert (A : forall p, In p (input_files w args) ->
                        endswith shard_suffix p = true).
  { intros p H. apply input_files_In in H as (name & _ & Hs & ->).
    now apply shard_path_endswith. }
  split; [exact A |]. split; [apply output_file_not_shard_path |].
  intros H. apply A in H. rewrite output_file_not_shard_path in H. discriminate.
Qed.

(** X3: when the directory argument holds none of the characters [glob]
    expands and the entries of the source directory are plain names (no
    separator in them), every input file lies in the directory of the
    consolidated output file, its last component is an entry of the source
    directory that discovery keeps, and the source directory is that
    directory (the current one when the directory part is empty). *)
Theorem X3_inputs_beside_output w args p :
  has_magic (datadir args) = false ->
  (forall n, In n (listdir w (source_directory args)) ->
             PyPath.has_sep n = false) ->
  In p (input_files w args) ->
  dirname p = dirname (output_file args) /\
  In (basename p) (listdir w (source_directory args)) /\
  is_shard (basename p) = true /\
  basename (output_file args) = consolidated_name /\
  source_directory args
  = (if PyPath.is_empty (dirname (output_file args)) then "."%string
     else dirname (output_file args)).
Proof.
  intros _ Plain H.
  apply input_files_In in H as (name & Hin & Hs & ->).
  pose proof (source_directory_dirname args) as SD.
  split; [| split; [| split; [| split; [| exact SD]]]]; unfold dirname, basename.
  - now rewrite (shard_path_split _ _ (Plain _ Hin)), output_file_split.
  - now rewrite (shard_path_split _ _ (Plain _ Hin)).
  - now rewrite (shard_path_split _ _ (Plain _ Hin)).
  - now rewrite output_file_split.
Qed.

Lemma X3_inputs_beside_output_witness :
  has_magic (datadir Sample2.args_slash) = false /\
  (forall n, In n (listdir (Sample.world Sample.entries [])
                           (source_directory Sample2.args_slash)) ->
             PyPath.has_sep n = false) /\
  In "data/b.mid.compound.txt"%string
     (input_files (Sample.world Sample.entries []) Sample2.args_slash) /\
  dirname "data/b.mid.compound.txt" = dirname (output_file Sample2.args_slash) /\
  dirname (output_file Sample2.args_slash) = "data"%string.
Proof.
  assert (A : forall n, In n (listdir (Sample.world Sample.entries [])
                                      (source_directory Sample2.args_slash)) ->
                        PyPath.has_sep n = false).
  { intros n H. vm_compute in H.
    repeat (destruct H as [<- | H]; [reflexivity |]). destruct H. }
  assert (B : In "data/b.mid.compound.txt"%string
                 (input_files (Sample.world Sample.entries []) Sample2.args_slash))
    by (vm_compute; auto).
  split; [reflexivity |]. split; [exact A |]. split; [exact B |].
  split; [| reflexivity].
  exact (proj1 (X3_inputs_beside_output _ Sample2.args_slash _ eq_refl A B)).
Defined.

(** X4: when the source directory lists each of its entries once, under
    plain names, no file is handed to the tokenizer twice. *)
Theorem X4_no_duplicate_inputs w args :
  NoDup (listdir w (source_directory args)) ->
  (forall n, In n (listdir w (source_directory args)) ->
             PyPath.has_sep n = false) ->
  NoDup (input_files w args).
Proof.
  intros N Plain. rewrite input_files_discovered.
  apply (Permutation_NoDup (sorted_Permutation _)).
  unfold discovered. apply map_NoDup_on; [| now apply NoDup_filter].
  intros x y Hx Hy E.
  apply filter_In in Hx as [Hx _]. apply filter_In in Hy as [Hy _].
  apply (f_equal PyPath.split) in E.
  rewrite !shard_path_split in E by auto. now injection E.
Qed.

Lemma X4_no_duplicate_inputs_witness :
  NoDup (listdir (Sample.world Sample.entries []) (source_directory Sample.args)) /\
  (forall n, In n (listdir (Sample.world Sample.entries [])
                           (source_directory Sample.args)) ->
             PyPath.has_sep n = false) /\
  NoDup (input_files (Sample.world Sample.entries []) Sample.args).
Proof.
  assert (N : NoDup (listdir (Sample.world Sample.entries [])
                             (source_directory Sample.args))).
  { change (NoDup Sample.entries). unfold Sample.entries.
    repeat (constructor;
            [simpl; intros H;
             repeat (destruct H as [H | H]; [discriminate |]); exact H |]).
    constructor. }
  assert (A : forall n, In n (listdir (Sample.world Sample.entries [])
                                      (source_directory Sample.args)) ->
                        PyPath.has_sep n = false).
  { intros n H. vm_compute in H.
    repeat (destruct H as [<- | H]; [reflexivity |]). destruct H. }
  split; [exact N |]. split; [exact A |].
  exact (X4_no_duplicate_inputs _ Sample.args N A).
Defined.

(** *** The directory argument *)

Lemma report_of_ext a a' r0 x y :
  output_file a' = output_file a -> interarrival a' = interarrival a ->
  report_of a' r0 x y = report_of a r0 x y.
Proof. intros O I. unfold report_of. now rewrite O, I. Qed.

(** Aggregation uses the command line for the output path and the mode
    only. *)
Lemma aggregate_args_ext cfg a a' results :
  output_file a' = output_file a -> interarrival a' = interarrival a ->
  aggregate cfg a' results = aggregate cfg a results.
Proof.
  intros O I. destruct results as [| r0 rest]; [reflexivity |].
  guard_cases cfg r0 G.
  - rewrite !aggregate_guard_true by lia.
    ratio_cases r0 x y; try reflexivity.
    now rewrite (report_of_ext _ _ _ _ _ O I).
  - rewrite !aggregate_guard_false by assumption.
    now rewrite (report_of_ext _ _ _ _ _ O I).
Qed.

Lemma join_after_trailing_sep d b :
  PyPath.is_empty d = false -> PyPath.endswith_sep d = false ->
  PyPath.join (d ++ String PyPath.sep "") b = PyPath.join d b.
Proof.
  intros E S. unfold PyPath.join.
  destruct (PyPath.startswith_sep b); [reflexivity |].
  rewrite E, S, endswith_sep_snoc, orb_true_r. cbn [orb].
  symmetry. apply append_snoc.
Qed.

(** X5: a separator appended to a directory argument that is not empty
    and does not end with one changes nothing but the text of the
    argument: the same files are discovered, the same output path is
    chosen, the pool gets the same call and the run ends the same way. *)
Theorem X5_trailing_separator cfg w args :
  PyPath.is_empty (datadir args) = false ->
  PyPath.endswith_sep (datadir args) = false ->
  input_files w (with_datadir (datadir args ++ String PyPath.sep "") args)
  = input_files w args /\
  output_file (with_datadir (datadir args ++ String PyPath.sep "") args)
  = output_file args /\
  dispatches
    (fst (main cfg w (with_datadir (datadir args ++ String PyPath.sep "") args)))
  = dispatches (fst (main cfg w args)) /\
  snd (main cfg w (with_datadir (datadir args ++ String PyPath.sep "") args))
  = snd (main cfg w args).
Proof.
  intros E S.
  set (args' := with_datadir (datadir args ++ String PyPath.sep "") args).
  assert (I : input_files w args' = input_files w args).
  { unfold input_files, args', with_datadir. cbn [datadir].
    now rewrite join_after_trailing_sep. }
  assert (O : output_file args' = output_file args).
  { unfold output_file, args', with_datadir. cbn [datadir].
    now rewrite join_after_trailing_sep. }
  assert (F : func args' = func args) by reflexivity.
  assert (J : starmap_args w args' = starmap_args w args).
  { unfold starmap_args. rewrite I, O. reflexivity. }
  split; [exact I |]. split; [exact O |].
  assert (C : input_files w args = [] \/ input_files w args <> [])
    by (destruct (input_files w args); [left | right]; congruence).
  destruct C as [Z0 | N].
  - rewrite (main_no_input _ _ args') by congruence.
    rewrite (main_no_input _ _ args) by exact Z0.
    cbn [fst snd]. rewrite !dispatches_app, !dispatches_prints. auto.
  - assert (N' : input_files w args' <> []) by congruence.
    destruct (main_after_dispatch cfg _ _ N) as [ls Hls].
    destruct (main_after_dispatch cfg _ _ N') as [ls' Hls'].
    split.
    + rewrite Hls, Hls'. unfold dispatch_prefix.
      rewrite !dispatches_app, !dispatches_prints. cbn [dispatches filter is_dispatch].
      now rewrite F, J.
    + rewrite (main_dispatch _ _ _ N), (main_dispatch _ _ _ N').
      unfold dispatched. rewrite F, J.
      rewrite (aggregate_args_ext cfg args args' _ O eq_refl).
      now destruct (aggregate cfg args _) as [t [r | o]].
Qed.

Lemma X5_trailing_separator_witness :
  PyPath.is_empty (datadir Sample.args) = false /\
  PyPath.endswith_sep (datadir Sample.args) = false /\
  with_datadir (datadir Sample.args ++ String PyPath.sep "") Sample.args
  = Sample2.args_slash /\
  input_files (Sample.world Sample.entries [Sample.stats]) Sample2.args_slash
  = input_files (Sample.world Sample.entries [Sample.stats]) Sample.args.
Proof.
  split; [reflexivity |]. split; [reflexivity |]. split; [reflexivity |].
  exact (proj1 (X5_trailing_separator Sample.cfg
                  (Sample.world Sample.entries [Sample.stats]) Sample.args
                  eq_refl eq_refl)).
Defined.

(** *** The answer of the pool *)

(** X6: of the pool's answer a run reads the first tuple and nothing
    else: two worlds with the same directories whose pools answer lists
    with the same first tuple (or both the empty list) give the same run,
    whatever follows the first tuple. *)
Theorem X6_first_tuple_only cfg w w' args :
  (forall d, listdir w d = listdir w' d) ->
  hd_error (dispatched cfg w args) = hd_error (dispatched cfg w' args) ->
  main cfg w args = main cfg w' args.
Proof.
  intros L H. apply main_ext_head; [| exact H].
  apply input_files_listing_order. intros d. now rewrite L.
Qed.

Lemma X6_first_tuple_only_witness :
  (forall d, listdir (Sample.world Sample.entries [Sample.stats; Sample.stats']) d
             = listdir (Sample.world Sample.entries
                                     [Sample.stats; Sample.no_sequences; Sample.huge]) d) /\
  main Sample.cfg (Sample.world Sample.entries [Sample.stats; Sample.stats'])
       Sample.args
  = main Sample.cfg
         (Sample.world Sample.entries
                       [Sample.stats; Sample.no_sequences; Sample.huge])
         Sample.args.
Proof.
  split; [reflexivity |].
  exact (X6_first_tuple_only Sample.cfg
           (Sample.world Sample.entries [Sample.stats; Sample.stats'])
           (Sample.world Sample.entries
                         [Sample.stats; Sample.no_sequences; Sample.huge])
           Sample.args (fun _ => eq_refl) eq_refl).
Defined.

(** *** The ways a run ends *)

Lemma guard_false_iff cfg r0 :
  (sequence_count r0 >? 0) && (M cfg >? 0) = false <->
  sequence_count r0 <= 0 \/ M cfg <= 0.
Proof.
  rewrite andb_false_iff, !Z.gtb_ltb, !Z.ltb_ge. tauto.
Qed.

Lemma percent_ratio_None_iff count seq_count unit_length :
  percent_ratio count seq_count unit_length = None <->
  beyond_float count \/ beyond_float (seq_count * unit_length).
Proof.
  unfold percent_ratio, PyFloat.float_of_int, beyond_float.
  destruct (Z.ltb_spec (Z.abs count) PyFloat.float_overflow_bound) as [A | A];
    destruct (Z.ltb_spec (Z.abs (seq_count * unit_length))
                         PyFloat.float_overflow_bound) as [B | B];
    split; try (intros _; auto; fail); try discriminate; try reflexivity.
  intros [H | H]; lia.
Qed.

(** Every run of [main], by what discovery finds, what the pool answers
    and what the guard and the conversions do. *)
Lemma main_cases cfg w args :
  (input_files w args = [] /\
   main cfg w args
   = (map Print (banner cfg args) ++ [Print (no_input_diagnostic args)],
      Returned None)) \/
  (input_files w args <> [] /\
   ((dispatched cfg w args = [] /\
     main cfg w args
     = (dispatch_prefix cfg w args ++ [Print empty_result_diagnostic],
        Returned None)) \/
    exists r0 rest,
      dispatched cfg w args = r0 :: rest /\
      (((sequence_count r0 <= 0 \/ M cfg <= 0) /\
        main cfg w args
        = (dispatch_prefix cfg w args
           ++ map Print (report_lines cfg (report_of args r0 (PInt 0) (PInt 0))),
           Returned (Some (report_of args r0 (PInt 0) (PInt 0))))) \/
       (sequence_count r0 > 0 /\ M cfg > 0 /\
        match percent_ratio (rest_token_count r0) (sequence_count r0) (M cfg),
              percent_ratio (truncation_count r0) (sequence_count r0) (M cfg) with
        | Some a, Some b =>
            main cfg w args
            = (dispatch_prefix cfg w args
               ++ map Print (report_lines cfg
                               (report_of args r0 (PFloat a) (PFloat b))),
               Returned (Some (report_of args r0 (PFloat a) (PFloat b))))
        | _, _ => main cfg w args = (dispatch_prefix cfg w args, Raised OverflowError)
        end)))).
Proof.
  assert (C : input_files w args = [] \/ input_files w args <> [])
    by (destruct (input_files w args); [left | right]; congruence).
  destruct C as [Z0 | N]; [left; split; [exact Z0 | now apply main_no_input] |].
  right. split; [exact N |].
  rewrite (main_dispatch _ _ _ N).
  destruct (dispatched cfg w args) as [| r0 rest].
  - left. split; [reflexivity |]. now rewrite aggregate_nil.
  - right. exists r0, rest. split; [reflexivity |].
    guard_cases cfg r0 G.
    + right. split; [lia |]. split; [lia |].
      rewrite aggregate_guard_true by lia.
      ratio_cases r0 a b; try reflexivity; now rewrite app_nil_r.
    + left. split; [now apply guard_false_iff |].
      now rewrite aggregate_guard_false.
Qed.

(** The run of lines 59 to 89 on a result list. *)
Lemma after_pool_run cfg args results :
  run (after_pool cfg args results) =
  match aggregate cfg args results with
  | (t, Cont r) => (t ++ map Print (report_lines cfg r), Returned (Some r))
  | (t, Halt o) => (t, o)
  end.
Proof.
  unfold after_pool. destruct (aggregate cfg args results) as [t [r | o]];
    unfold bind; [| reflexivity].
  rewrite print_all_events. unfold ret, run. now rewrite app_nil_r.
Qed.

(** A run that found files is the prefix up to the call on the pool,
    followed by lines 59 to 89 on what the pool returned. *)
Lemma main_after_pool cfg w args :
  input_files w args <> [] ->
  main cfg w args
  = (dispatch_prefix cfg w args
     ++ fst (run (after_pool cfg args (dispatched cfg w args))),
     snd (run (after_pool cfg args (dispatched cfg w args)))).
Proof.
  intros N. rewrite (main_dispatch _ _ _ N), after_pool_run.
  now destruct (aggregate cfg args (dispatched cfg w args)) as [t [r | o]].
Qed.

(** Every run of lines 59 to 89, by the result list, the guard and the
    conversions. *)
Lemma after_pool_cases cfg args results :
  (results = [] /\
   run (after_pool cfg args results)
   = ([Print empty_result_diagnostic], Returned None)) \/
  exists r0 rest,
    results = r0 :: rest /\
    (((sequence_count r0 <= 0 \/ M cfg <= 0) /\
      run (after_pool cfg args results)
      = (map Print (report_lines cfg (report_of args r0 (PInt 0) (PInt 0))),
         Returned (Some (report_of args r0 (PInt 0) (PInt 0))))) \/
     (sequence_count r0 > 0 /\ M cfg > 0 /\
      match percent_ratio (rest_token_count r0) (sequence_count r0) (M cfg),
            percent_ratio (truncation_count r0) (sequence_count r0) (M cfg) with
      | Some a, Some b =>
          run (after_pool cfg args results)
          = (map Print (report_lines cfg (report_of args r0 (PFloat a) (PFloat b))),
             Returned (Some (report_of args r0 (PFloat a) (PFloat b))))
      | _, _ => run (after_pool cfg args results) = ([], Raised OverflowError)
      end)).
Proof.
  rewrite after_pool_run.
  destruct results as [| r0 rest].
  - left. split; [reflexivity |]. now rewrite aggregate_nil.
  - right. exists r0, rest. split; [reflexivity |].
    guard_cases cfg r0 G.
    + right. split; [lia |]. split; [lia |].
      rewrite aggregate_guard_true by lia.
      ratio_cases r0 a b; reflexivity.
    + left. split; [now apply guard_false_iff |].
      now rewrite aggregate_guard_false.
Qed.

Lemma main_banner_first cfg w args :
  exists rest, fst (main cfg w args) = map Print (banner cfg args) ++ rest.
Proof.
  assert (C : input_files w args = [] \/ input_files w args <> [])
    by (destruct (input_files w args); [left | right]; congruence).
  destruct C as [Z0 | N].
  - rewrite (main_no_input _ _ _ Z0). cbn [fst]. eauto.
  - destruct (main_after_dispatch cfg _ _ N) as [ls ->].
    unfold dispatch_prefix. rewrite <- app_assoc. eauto.
Qed.

(** The only call on the pool a run makes is the one of line 57. *)
Lemma main_starmap_In cfg w args p f jobs :
  In (Starmap p f jobs) (fst (main cfg w args)) ->
  p = PREPROC_WORKERS cfg /\ f = func args /\ jobs = starmap_args w args.
Proof.
  assert (NP : forall ls, ~ In (Starmap p f jobs) (map Print ls)).
  { intros ls H. apply in_map_iff in H as (l & E & _). discriminate. }
  assert (C : input_files w args = [] \/ input_files w args <> [])
    by (destruct (input_files w args); [left | right]; congruence).
  destruct C as [Z0 | N].
  - rewrite (main_no_input _ _ _ Z0). cbn [fst]. intros H.
    apply in_app_or in H as [H | [H | []]]; [now apply NP in H | discriminate].
  - destruct (main_after_dispatch cfg _ _ N) as [ls ->].
    unfold dispatch_prefix. intros H.
    apply in_app_or in H as [H | H]; [| now apply NP in H].
    apply in_app_or in H as [H | [H | [H | []]]];
      [now apply NP in H | discriminate |].
    now injection H as <- <- <-.
Qed.

(** X7: the banner, the routine and the report agree on the encoding: the
    second line a run prints names the encoding, "interarrival" exactly when
    the flag is set; a call on the pool hands it [tokenize_ia] exactly when
    that line says "interarrival", and [tokenize] otherwise; and a report
    labels truncations "interarrival" exactly then. *)
Theorem X7_mode_agreement cfg w args :
  nth_error (printed (fst (main cfg w args))) 1
  = Some (encoding_line (encoding args)) /\
  (encoding args = "interarrival"%string <-> interarrival args = true) /\
  (encoding args = "arrival"%string <-> interarrival args = false) /\
  (forall p f jobs,
     In (Starmap p f jobs) (fst (main cfg w args)) ->
     (f = tokenize_ia <-> encoding args = "interarrival"%string) /\
     (f = tokenize <-> encoding args = "arrival"%string)) /\
  (forall t r,
     main cfg w args = (t, Returned (Some r)) ->
     (Report.trunc_type r = "interarrival"%string
      <-> encoding args = "interarrival"%string)).
Proof.
  split; [| split; [| split; [| split]]].
  - destruct (main_banner_first cfg w args) as [rest ->].
    rewrite printed_app, printed_prints. reflexivity.
  - unfold encoding. destruct (interarrival args); split;
      intros; try reflexivity; discriminate.
  - unfold encoding. destruct (interarrival args); split;
      intros; try reflexivity; discriminate.
  - intros p f jobs H. apply main_starmap_In in H as (_ & -> & _).
    unfold func, encoding. destruct (interarrival args); split; split;
      intros; try reflexivity; discriminate.
  - intros t r H.
    destruct (main_reported_inv _ _ _ _ _ H)
      as (_ & r0 & rest & a & b & _ & -> & _).
    unfold encoding. simpl. destruct (interarrival args); simpl; split;
      intros; try reflexivity; discriminate.
Qed.


(** X9: once the pool has returned a result list, the rest of [main]
    (lines 59 to 89) ends with OverflowError exactly when the first tuple
    of the list passes the guard (positive sequence count, positive unit
    length) and the rest count, the truncation count or [seq_count * M]
    is beyond what [float] converts.  These lines have then printed
    nothing: no report, no diagnostic; in a run that found files the last
    printed line is the "Found ... files" line. *)
Theorem X9_overflow cfg args results :
  (snd (run (after_pool cfg args results)) = Raised OverflowError <->
   exists r0 rest,
     results = r0 :: rest /\
     sequence_count r0 > 0 /\ M cfg > 0 /\
     (beyond_float (rest_token_count r0) \/
      beyond_float (truncation_count r0) \/
      beyond_float (sequence_count r0 * M cfg))) /\
  (snd (run (after_pool cfg args results)) = Raised OverflowError ->
   fst (run (after_pool cfg args results)) = [] /\
   forall w,
     input_files w args <> [] ->
     dispatched cfg w args = results ->
     main cfg w args = (dispatch_prefix cfg w args, Raised OverflowError) /\
     printed (fst (main cfg w args))
     = banner cfg args ++ [found_line (List.length (input_files w args))]).
Proof.
  assert (PP : forall w, printed (dispatch_prefix cfg w args)
               = banner cfg args ++ [found_line (List.length (input_files w args))]).
  { intros w. unfold dispatch_prefix. now rewrite printed_app, printed_prints. }
  assert (L : forall w,
             input_files w args <> [] ->
             dispatched cfg w args = results ->
             run (after_pool cfg args results) = ([], Raised OverflowError) ->
             main cfg w args = (dispatch_prefix cfg w args, Raised OverflowError) /\
             printed (fst (main cfg w args))
             = banner cfg args ++ [found_line (List.length (input_files w args))]).
  { intros w N <- E. rewrite (main_after_pool _ _ _ N), E. cbn [fst snd].
    rewrite app_nil_r. split; [reflexivity | apply PP]. }
  destruct (after_pool_cases cfg args results)
    as [[D E] | (r0 & rest & D & [[G E] | (Gs & Gm & H)])].
  - rewrite E. cbn [snd fst].
    split; [split; [discriminate |] | discriminate].
    intros (r0 & rest & D' & _). congruence.
  - rewrite E. cbn [snd fst].
    split; [split; [discriminate |] | discriminate].
    intros (r0' & rest' & D' & Gs & Gm & _).
    rewrite D in D'. injection D' as <- _. lia.
  - destruct (percent_ratio (rest_token_count r0) _ _) as [a |] eqn:Ra;
      [destruct (percent_ratio (truncation_count r0) _ _) as [b |] eqn:Rb |].
    + rewrite H. cbn [snd fst].
      split; [split; [discriminate |] | discriminate].
      intros (r0' & rest' & D' & _ & _ & B).
      rewrite D in D'. injection D' as <- _.
      assert (O1 : percent_ratio (rest_token_count r0) (sequence_count r0) (M cfg)
                   = None \/
                   percent_ratio (truncation_count r0) (sequence_count r0) (M cfg)
                   = None).
      { rewrite !percent_ratio_None_iff. tauto. }
      destruct O1; congruence.
    + split; [split; [intros _ | intros _; now rewrite H] |].
      * exists r0, rest. split; [exact D |].
        apply percent_ratio_None_iff in Rb. tauto.
      * intros _. split; [now rewrite H |]. intros w N Dw. now apply L.
    + split; [split; [intros _ | intros _; now rewrite H] |].
      * exists r0, rest. split; [exact D |].
        apply percent_ratio_None_iff in Ra. tauto.
      * intros _. split; [now rewrite H |]. intros w N Dw. now apply L.
Qed.

Lemma percent_ratio_Some count seq_count unit_length a :
  percent_ratio count seq_count unit_length = Some a ->
  a = percentage count seq_count unit_length.
Proof.
  unfold percent_ratio, percentage, PyFloat.float_of_int.
  destruct (Z.abs count <? PyFloat.float_overflow_bound); [| discriminate].
  destruct (Z.abs (seq_count * unit_length) <? PyFloat.float_overflow_bound);
    [| discriminate].
  now intros [= <-].
Qed.

(** X10: in a run that ends with a report, the two ratios are of one
    kind: both are the integer 0 when the first tuple's sequence count or
    the unit length is zero or negative, and both are floats, each the
    percentage of its count over [seq_count * M] rounded to 2 places,
    when both are positive. *)
Theorem X10_ratio_kinds cfg w args t r :
  main cfg w args = (t, Returned (Some r)) ->
  exists r0 rest,
    dispatched cfg w args = r0 :: rest /\
    is_float (Report.rest_ratio r) = is_float (Report.trunc_ratio r) /\
    (is_float (Report.rest_ratio r) = true <->
     sequence_count r0 > 0 /\ M cfg > 0) /\
    (sequence_count r0 <= 0 \/ M cfg <= 0 ->
     Report.rest_ratio r = PInt 0 /\ Report.trunc_ratio r = PInt 0) /\
    (sequence_count r0 > 0 /\ M cfg > 0 ->
     Report.rest_ratio r
     = PFloat (percentage (rest_token_count r0) (sequence_count r0) (M cfg)) /\
     Report.trunc_ratio r
     = PFloat (percentage (truncation_count r0) (sequence_count r0) (M cfg))).
Proof.
  intros H.
  destruct (main_cases cfg w args)
    as [[_ E] | [_ [[_ E] | (r0 & rest & D & [[G E] | (Gs & Gm & E)])]]];
    try (rewrite E in H; discriminate).
  - rewrite E in H. injection H as _ <-.
    exists r0, rest. split; [exact D |]. cbn.
    split; [reflexivity |]. split; [split; [discriminate | lia] |].
    split; [auto | lia].
  - destruct (percent_ratio (rest_token_count r0) _ _) as [a |] eqn:Ra;
      [destruct (percent_ratio (truncation_count r0) _ _) as [b |] eqn:Rb |];
      rewrite E in H; try discriminate.
    injection H as _ <-.
    apply percent_ratio_Some in Ra, Rb. subst a b.
    exists r0, rest. split; [exact D |]. cbn.
    split; [reflexivity |]. split; [split; auto |].
    split; [lia | auto].
Qed.

Lemma X10_ratio_kinds_witness :
  main Sample.cfg (Sample.world Sample.entries [Sample2.quiet]) Sample.args
  = (dispatch_prefix Sample.cfg (Sample.world Sample.entries [Sample2.quiet])
                     Sample.args
     ++ map Print (report_lines Sample.cfg
                     (report_of Sample.args Sample2.quiet
                                (PFloat 0%float) (PFloat 0%float))),
     Returned (Some (report_of Sample.args Sample2.quiet
                               (PFloat 0%float) (PFloat 0%float)))) /\
  exists r0 rest,
    dispatched Sample.cfg (Sample.world Sample.entries [Sample2.quiet]) Sample.args
    = r0 :: rest /\
    (is_float (PFloat 0%float) = true <->
     sequence_count r0 > 0 /\ M Sample.cfg > 0).
Proof.
  assert (H : main Sample.cfg (Sample.world Sample.entries [Sample2.quiet])
                   Sample.args
    = (dispatch_prefix Sample.cfg (Sample.world Sample.entries [Sample2.quiet])
                       Sample.args
       ++ map Print (report_lines Sample.cfg
                       (report_of Sample.args Sample2.quiet
                                  (PFloat 0%float) (PFloat 0%float))),
       Returned (Some (report_of Sample.args Sample2.quiet
                                 (PFloat 0%float) (PFloat 0%float)))))
    by (vm_compute; reflexivity).
  split; [exact H |].
  destruct (X10_ratio_kinds _ _ _ _ _ H) as (r0 & rest & D & _ & I & _).
  exists r0, rest. split; [exact D | exact I].
Defined.

